(** * csv_to_xlsx_process: the worksheet post-processing script

    A shallow embedding of [csv_to_xlsx_process.ts].  The script is glue
    over the ExcelScript host API: every function of the script is written
    once, over an interface [ExcelHost] that lists the host calls the script
    makes, so that what the script itself decides (guards, arguments, order
    of calls, early exits) is proved for every host.  What depends on the
    host's behaviour is proved for [Sheet], a reference host written from the
    worksheet model of the specification.

    Numbers are integers ([Z]): column indices, row heights and array
    elements.  Non-integral numbers and [NaN] are outside the model.
    [insertColumn], which [main] does not call, is left out. *)

From Stdlib Require Import ZArith Ascii String List.
From stdpp Require Import base tactics option list list_numbers sorting
  strings pretty gmap.

Local Open Scope Z_scope.

(** ** JavaScript values and strings *)

Module Js.

(** [s.endsWith(suffix)] *)
Definition endsWith (s suffix : string) : bool :=
  let n := String.length s in
  let k := String.length suffix in
  (k <=? n)%nat && String.eqb (String.substring (n - k) k s) suffix.

(** [s.lastIndexOf(c)] for a one-character needle; [-1] when absent. *)
Fixpoint lastIndexOfFrom (c : ascii) (s : string) (i : Z) (found : Z) : Z :=
  match s with
  | EmptyString => found
  | String a s' =>
      lastIndexOfFrom c s' (i + 1) (if Ascii.eqb a c then i else found)
  end.

Definition lastIndexOf (s : string) (c : ascii) : Z :=
  lastIndexOfFrom c s 0 (-1).

(** [s.substring(0, e)] for [0 <= e]. *)
Definition substring0 (s : string) (e : Z) : string :=
  String.substring 0 (Z.to_nat e) s.

(** [`${n}`] for an integer. *)
Definition numberToString (n : Z) : string := pretty n.

(** [`${xs}`] for an array of strings: [xs.join(",")]. *)
Definition arrayToString (xs : list string) : string :=
  String.concat "," xs.

Definition newline : string := String "010"%char EmptyString.

(** What a script can throw.  [Error] and [RangeError] are the two the
    script constructs itself; [TypeError] is raised by the runtime when a
    method is called on [undefined]; [HostError] is a failure reported by
    a host call and passed on unchanged. *)
Inductive Exception : Type :=
| Error (message : string)
| RangeError (message : string)
| TypeError (message : string)
| HostError (code : string).

Inductive Completion (A : Type) : Type :=
| Normal (a : A)
| Throw (e : Exception).
Global Arguments Normal {A} a.
Global Arguments Throw {A} e.

End Js.
Export Js.

(** ** The part of the ExcelScript API the script uses *)

(** A range is a rectangle of cells, given by the position of its top-left
    cell and its size; a range always has at least one row and one column. *)
Record Range : Type := mkRange {
  getRowIndex : Z;
  getColumnIndex : Z;
  getRowCount : positive;
  getColumnCount : positive
}.

Global Instance Range_eq_dec : EqDecision Range.
Proof. solve_decision. Defined.

(** [ExcelScript.SortField], with the two members the script sets. *)
Record SortField : Type := mkSortField {
  key : Z;
  ascending : bool
}.

(** [ExcelScript.FilterOn] *)
Inductive FilterOn : Type :=
| bottomItems | bottomPercent | cellColor | custom | dynamic
| fontColor | icon | topItems | topPercent | values.

(** [ExcelScript.FilterCriteria], with the two members the script sets. *)
Record FilterCriteria : Type := mkFilterCriteria {
  filterOn : FilterOn;
  filterValues : list string
}.

(** The host calls of the script.  [W] is the host's worksheet state.  A
    host call either returns or fails with an error code.
    [Worksheet_getAutoFilter_getRange] is [None] for JavaScript's
    [undefined] (no range is associated with the autofilter). *)
Class ExcelHost (W : Type) : Type := {
  Worksheet_getRange : string → W → string + Range;
  Worksheet_getUsedRange : W → Range;
  Worksheet_getAutoFilter_getRange : W → option Range;
  AutoFilter_apply :
    option Range → option (Z * FilterCriteria) → W → string + W;
  Range_setColumnHidden : Range → bool → W → string + W;
  RangeSort_apply : Range → list SortField → bool → bool → W → string + W;
  Range_removeDuplicates : Range → list Z → bool → W → string + W;
  RangeFormat_setRowHeight : Range → Z → W → string + W;
  RangeFormat_autofitColumns : Range → W → string + W
}.

(** ** The script's run-time state and its monad *)

(** The workbook with its active worksheet, the arrays of numbers the script
    allocates (by reference, so that a callee's update is seen by the
    caller) and the console. *)
Record Runtime (W : Type) : Type := mkRuntime {
  workbookName : string;
  activeWorksheet : W;
  arrays : gmap nat (list Z);
  console : list string
}.
Global Arguments mkRuntime {W} _ _ _ _.
Global Arguments workbookName {W} _.
Global Arguments activeWorksheet {W} _.
Global Arguments arrays {W} _.
Global Arguments console {W} _.

(** A script step: it returns or throws, and in both cases leaves a state. *)
Definition Script (W A : Type) : Type := Runtime W → Completion A * Runtime W.

Section Monad.
Context {W : Type}.

Definition ret {A} (a : A) : Script W A := λ σ, (Normal a, σ).

Definition bind {A B} (m : Script W A) (k : A → Script W B) : Script W B :=
  λ σ, match m σ with
       | (Normal a, σ') => k a σ'
       | (Throw e, σ') => (Throw e, σ')
       end.

Definition throw {A} (e : Exception) : Script W A := λ σ, (Throw e, σ).

(** [console.log(line)] *)
Definition console_log (line : string) : Script W unit :=
  λ σ, (Normal tt,
        mkRuntime (workbookName σ) (activeWorksheet σ) (arrays σ)
                  (console σ ++ [line])).

(** [workbook.getName()] *)
Definition Workbook_getName : Script W string :=
  λ σ, (Normal (workbookName σ), σ).

(** A host call that reads the worksheet. *)
Definition hostGet {A} (f : W → A) : Script W A :=
  λ σ, (Normal (f (activeWorksheet σ)), σ).

(** A host call that may fail and returns a value. *)
Definition hostTry {A} (f : W → string + A) : Script W A :=
  λ σ, match f (activeWorksheet σ) with
       | inr a => (Normal a, σ)
       | inl code => (Throw (HostError code), σ)
       end.

(** A host call that changes the worksheet or fails. *)
Definition hostDo (f : W → string + W) : Script W unit :=
  λ σ, match f (activeWorksheet σ) with
       | inr w' =>
           (Normal tt, mkRuntime (workbookName σ) w' (arrays σ) (console σ))
       | inl code => (Throw (HostError code), σ)
       end.

(** An array literal: a new array, returned by reference. *)
Definition newArray (xs : list Z) : Script W nat :=
  λ σ, let a := fresh (dom (arrays σ)) in
       (Normal a,
        mkRuntime (workbookName σ) (activeWorksheet σ)
                  (<[a := xs]> (arrays σ)) (console σ)).

(** The current elements of the array at [a]; a reference always names an
    array, and the model stops on anything else. *)
Definition readArray (a : nat) : Script W (list Z) :=
  λ σ, match arrays σ !! a with
       | Some xs => (Normal xs, σ)
       | None => (Throw (TypeError "not an array"), σ)
       end.

(** [a[i] -= d] for [i] inside the array, the only case the loops of the
    script get to (outside it JavaScript would store [NaN]; the model stops
    instead). *)
Definition arraySubAssign (a : nat) (i : nat) (d : Z) : Script W unit :=
  λ σ, match arrays σ !! a with
       | Some xs =>
           match xs !! i with
           | Some x =>
               (Normal tt,
                mkRuntime (workbookName σ) (activeWorksheet σ)
                          (<[a := <[i := x - d]> xs]> (arrays σ))
                          (console σ))
           | None => (Throw (TypeError "index out of range"), σ)
           end
       | None => (Throw (TypeError "not an array"), σ)
       end.

(** [for (let i = first; i < first + n; i++) body(i)] *)
Fixpoint forRange (n : nat) (first : nat) (body : nat → Script W unit)
  : Script W unit :=
  match n with
  | O => ret tt
  | S n' => bind (body first) (λ _, forRange n' (S first) body)
  end.

(** [for (const x of xs) body(x)] *)
Fixpoint forOf {A} (xs : list A) (body : A → Script W unit)
  : Script W unit :=
  match xs with
  | [] => ret tt
  | x :: xs' => bind (body x) (λ _, forOf xs' body)
  end.

End Monad.

Declare Scope script_scope.
Delimit Scope script_scope with script.
Notation "'let*' x := m 'in' k" := (bind m (λ x, k))
  (at level 10, x name, m at level 100, k at level 200) : script_scope.
Notation "m ;; k" := (bind m (λ _, k))
  (at level 100, k at level 200, right associativity) : script_scope.
Local Open Scope script_scope.

(** ** The script *)

Section Script.
Context {W : Type} `{ExcelHost W}.

(** [hideColumns(worksheet, columnsTobeHidden)] *)
Definition hideColumns (columnsTobeHidden : string) : Script W unit :=
  let* range := hostTry (Worksheet_getRange columnsTobeHidden) in
  hostDo (Range_setColumnHidden range true) ;;
  console_log ("Columns " +:+ columnsTobeHidden +:+ " are hidden.").

(** [filterColumns(worksheet, columnsTobeFiltered)] *)
Definition filterColumns (columnsTobeFiltered : string) : Script W unit :=
  let* range := hostTry (Worksheet_getRange columnsTobeFiltered) in
  hostDo (AutoFilter_apply (Some range) None) ;;
  console_log ("Filters applied to columns " +:+ columnsTobeFiltered +:+ ".").

(** [sort(worksheet, columnIndex)].  [getSort()] on an [undefined] range
    is a [TypeError] of the runtime. *)
Definition sort (columnIndex : Z) : Script W unit :=
  if columnIndex <? 0 then
    throw (RangeError ("columnIndex = " +:+ numberToString columnIndex
                       +:+ " cannot be less than 0."))
  else
    let* filterableRange := hostGet Worksheet_getAutoFilter_getRange in
    match filterableRange with
    | None =>
        throw (TypeError "Cannot read properties of undefined")
    | Some filterableRange =>
        hostDo (RangeSort_apply filterableRange
                  [ {| key := columnIndex - getColumnIndex filterableRange;
                       ascending := true |} ]
                  false   (* Match case: false. *)
                  true)   (* Treat first row as a header row: true. *)
        ;;
        console_log ("Table sorted by column "
                     +:+ numberToString columnIndex +:+ ".")
    end.

(** [onlyShowFiltered(worksheet, columnIndex, valuesTobeShown)] *)
Definition onlyShowFiltered (columnIndex : Z) (valuesTobeShown : list string)
  : Script W unit :=
  let* range := hostGet Worksheet_getAutoFilter_getRange in
  hostDo (AutoFilter_apply range
            (* columnIndex - range.getColumnIndex(), *)
            (Some (0, {| filterOn := values;
                         filterValues := valuesTobeShown |})))
  ;;
  console_log ("Table only show filtered at column "
               +:+ numberToString columnIndex +:+ " with values "
               +:+ arrayToString valuesTobeShown +:+ ".").

(** [removeDuplicates(worksheet, consideredColumns)]; [consideredColumns]
    is a reference to the caller's array.  The loop bound
    [consideredColumns.length] is read once: the body never changes it. *)
Definition removeDuplicates (consideredColumns : nat) : Script W unit :=
  let* usedRange := hostGet Worksheet_getUsedRange in
  let* elements := readArray consideredColumns in
  forRange (length elements) 0
    (λ i, arraySubAssign consideredColumns i (getColumnIndex usedRange))
  ;;
  let* columns := readArray consideredColumns in
  hostDo (Range_removeDuplicates usedRange columns true) ;;
  console_log "Duplicates removed.".

(** [setRowHeight(worksheet, rowHeight)] *)
Definition setRowHeight (rowHeight : Z) : Script W unit :=
  if rowHeight <=? 0 then
    throw (RangeError ("rowHeight = " +:+ numberToString rowHeight
                       +:+ " cannot be less than or equal to 0."))
  else
    let* usedRange := hostGet Worksheet_getUsedRange in
    hostDo (RangeFormat_setRowHeight usedRange rowHeight) ;;
    console_log ("Height of occupied cells is set to "
                 +:+ numberToString rowHeight +:+ ".").

(** [autofitColumn(worksheet, column)] *)
Definition autofitColumn (column : string) : Script W unit :=
  let columnRange := column +:+ ":" +:+ column in
  let* range := hostTry (Worksheet_getRange columnRange) in
  hostDo (RangeFormat_autofitColumns range) ;;
  console_log ("Autofit is applied to column " +:+ column +:+ ".").

(** [autofitColumns(worksheet, columnsTobeAutofitted)] *)
Definition autofitColumns (columnsTobeAutofitted : list string)
  : Script W unit :=
  forOf columnsTobeAutofitted autofitColumn ;;
  console_log ("Autofit is applied to columns "
               +:+ arrayToString columnsTobeAutofitted +:+ ".").

Definition COLUMNS_TOBE_HIDDEN : string := "A:C".
Definition COLUMNS_TOBE_FILTERED : string := "D:O".
Definition RISK_COLUMN : Z := 3.
Definition DUPLICATES_CONSIDERED_COLUMNS : list Z :=
  [3; 4; 5; 6; 7; 8; 9; 10; 11; 12; 13; 14].
Definition UNIFIED_ROW_HEIGHT : Z := 14.
Definition RISK_LEVELS_TOBE_SHOWN : list string :=
  ["Critical"; "High"; "Low"; "Medium"].
Definition COLUMNS_TOBE_AUTOFITTED : list string :=
  ["E"; "F"; "I"; "J"; "M"].

Definition WRONG_FILE_KIND : string :=
  "You can only run this script in .xlsx files." +:+ newline +:+
  "Save this file as a .xlsx file first.".

(** The statements of [main] after the file-kind check, in order.  The
    array literal of the considered columns is allocated by the step that
    passes it on. *)
Definition pipeline : list (Script W unit) :=
  [ hideColumns COLUMNS_TOBE_HIDDEN;
    filterColumns COLUMNS_TOBE_FILTERED;
    sort RISK_COLUMN;
    (let* consideredColumns := newArray DUPLICATES_CONSIDERED_COLUMNS in
     removeDuplicates consideredColumns);
    setRowHeight UNIFIED_ROW_HEIGHT;
    onlyShowFiltered RISK_COLUMN RISK_LEVELS_TOBE_SHOWN;
    autofitColumns COLUMNS_TOBE_AUTOFITTED ].

(** Statements run one after the other; a throw ends the run. *)
Fixpoint runSteps (steps : list (Script W unit)) : Script W unit :=
  match steps with
  | [] => ret tt
  | step :: rest => step ;; runSteps rest
  end.

(** [main(workbook)].  [selectedSheet] is the active worksheet of the
    state; [FILENAME] is computed and, as in the script, not used. *)
Definition main : Script W unit :=
  let* FILENAME_WITH_EXTENSION := Workbook_getName in
  let FILENAME_EXTENSION_SEPARATOR_INDEX :=
    lastIndexOf FILENAME_WITH_EXTENSION "." in
  let FILENAME :=
    if FILENAME_EXTENSION_SEPARATOR_INDEX <? 0 then FILENAME_WITH_EXTENSION
    else substring0 FILENAME_WITH_EXTENSION
           (lastIndexOf FILENAME_WITH_EXTENSION ".") in
  if negb (endsWith FILENAME_WITH_EXTENSION ".xlsx") then
    throw (Error WRONG_FILE_KIND)
  else
    hideColumns COLUMNS_TOBE_HIDDEN ;;
    filterColumns COLUMNS_TOBE_FILTERED ;;
    sort RISK_COLUMN ;;
    (let* consideredColumns := newArray DUPLICATES_CONSIDERED_COLUMNS in
     removeDuplicates consideredColumns) ;;
    setRowHeight UNIFIED_ROW_HEIGHT ;;
    onlyShowFiltered RISK_COLUMN RISK_LEVELS_TOBE_SHOWN ;;
    autofitColumns COLUMNS_TOBE_AUTOFITTED.

End Script.

(** ** Exceptions a step can end with *)

(** Every exception the step can end with satisfies [P]. *)
Definition onlyThrows {W A} (P : Exception → Prop) (m : Script W A) : Prop :=
  ∀ σ e σ', m σ = (Throw e, σ') → P e.

(** Raised by the runtime or by the host, not by a [throw] of the script. *)
Definition external (e : Exception) : Prop :=
  match e with
  | TypeError _ | HostError _ => True
  | Error _ | RangeError _ => False
  end.

(** ** A reference host *)

(** Modelled from the spec: the ExcelScript host (worksheet, used range,
    column ranges, autofilter, range sort, duplicate removal, row heights,
    autofit) is not part of the repository; [Sheet] follows sections 3 and 4
    and the glossary of the specification.  Cell values are texts and a
    blank cell is the empty text.  A host call leaves the worksheet as it
    was when it fails; it fails with [InvalidArgument] on an address it
    cannot read, on an [undefined] range and on a column index that is not
    a column of the range it is applied to. *)
Module Sheet.

(** Modelled from the spec: the worksheet of section 3, with its cells, its
    used range, its hidden columns, its one autofilter (range and active
    criteria), its row heights and its column widths. *)
Record Worksheet : Type := mkWorksheet {
  cells : Z → Z → string;               (* row, column ↦ text *)
  usedRange : Range;
  hiddenColumns : gset Z;
  autoFilterRange : option Range;
  autoFilterCriteria : option (Z * list string);
  rowHeights : gmap Z Z;
  columnWidths : gmap Z Z
}.

(** *** Ranges and their values *)

Definition rowsOf (R : Range) : list Z :=
  seqZ (getRowIndex R) (Z.pos (getRowCount R)).

Definition columnsOf (R : Range) : list Z :=
  seqZ (getColumnIndex R) (Z.pos (getColumnCount R)).

Definition inRows (R : Range) (r : Z) : bool :=
  (getRowIndex R <=? r) && (r <? getRowIndex R + Z.pos (getRowCount R)).

Definition inColumns (R : Range) (k : Z) : bool :=
  (getColumnIndex R <=? k)
  && (k <? getColumnIndex R + Z.pos (getColumnCount R)).

(** A range-relative column index that names a column of the range. *)
Definition validColumn (R : Range) (k : Z) : bool :=
  (0 <=? k) && (k <? Z.pos (getColumnCount R)).

(** [range.getValues()]: the texts of the range, row by row. *)
Definition getValues (R : Range) (c : Z → Z → string) : list (list string) :=
  (λ r, (λ k, c r k) <$> columnsOf R) <$> rowsOf R.

(** [range.setValues(vs)] *)
Definition setValues (R : Range) (vs : list (list string))
    (c : Z → Z → string) : Z → Z → string :=
  λ r k,
    if inRows R r && inColumns R k then
      (vs !!! Z.to_nat (r - getRowIndex R))
        !!! Z.to_nat (k - getColumnIndex R)
    else c r k.

(** The first row of a block when it is a header row. *)
Definition headerOf (hasHeaders : bool) (block : list (list string))
  : list (list string) :=
  if hasHeaders then take 1 block else [].

Definition dataOf (hasHeaders : bool) (block : list (list string))
  : list (list string) :=
  if hasHeaders then drop 1 block else block.

(** *** Column addresses *)

(** [A] is 1, ..., [Z] is 26, in either case. *)
Definition letterValue (a : ascii) : option Z :=
  let n := Z.of_nat (nat_of_ascii a) in
  if (65 <=? n) && (n <=? 90) then Some (n - 64)
  else if (97 <=? n) && (n <=? 122) then Some (n - 96)
  else None.

Fixpoint lettersValue (s : string) (acc : Z) : option Z :=
  match s with
  | EmptyString => Some acc
  | String a s' =>
      match letterValue a with
      | Some v => lettersValue s' (acc * 26 + v)
      | None => None
      end
  end.

(** The 0-based index of a column written in letters. *)
Definition columnOfLetters (s : string) : option Z :=
  match s with
  | EmptyString => None
  | _ => (λ v, v - 1) <$> lettersValue s 0
  end.

Fixpoint splitAtColon (s : string) : option (string * string) :=
  match s with
  | EmptyString => None
  | String a s' =>
      if Ascii.eqb a ":"%char then Some (EmptyString, s')
      else (λ p, (String a (fst p), snd p)) <$> splitAtColon s'
  end.

(** The column span of an address [X:Y]. *)
Definition columnSpan (address : string) : option (Z * Z) :=
  match splitAtColon address with
  | Some (l, r) =>
      match columnOfLetters l, columnOfLetters r with
      | Some a, Some b => Some (Z.min a b, Z.max a b)
      | _, _ => None
      end
  | None => None
  end.

(** Modelled from the spec: [worksheet.getRange(address)] for the addresses
    the script builds, whole columns (sections 4.2, 4.3 and 4.8).  The rows
    of the range are those of the worksheet down to the last used row (the
    rows below are blank). *)
Definition getRange (address : string) (ws : Worksheet) : string + Range :=
  match columnSpan address with
  | Some (a, b) =>
      inr {| getRowIndex := 0;
             getColumnIndex := a;
             getRowCount :=
               Z.to_pos (getRowIndex (usedRange ws)
                         + Z.pos (getRowCount (usedRange ws)));
             getColumnCount := Z.to_pos (b - a + 1) |}
  | None => inl "InvalidArgument"
  end.

(** *** Column visibility *)

(** Modelled from the spec: [range.setColumnHidden(hidden)] of section 4.2,
    a display attribute of the columns of the range. *)
Definition setColumnHidden (R : Range) (hidden : bool) (ws : Worksheet)
  : string + Worksheet :=
  inr {| cells := cells ws;
         usedRange := usedRange ws;
         hiddenColumns :=
           if hidden then hiddenColumns ws ∪ list_to_set (columnsOf R)
           else hiddenColumns ws ∖ list_to_set (columnsOf R);
         autoFilterRange := autoFilterRange ws;
         autoFilterCriteria := autoFilterCriteria ws;
         rowHeights := rowHeights ws;
         columnWidths := columnWidths ws |}.

(** *** Autofilter *)

(** Modelled from the spec: [autoFilter.apply(range, columnIndex?,
    criteria?)] of sections 3, 4.3 and 4.5.  The autofilter is bound to
    [range]; criteria given before are cleared, and the criteria of this
    call, if any, become the active ones. *)
Definition autoFilterApply (range : option Range)
    (criteria : option (Z * FilterCriteria)) (ws : Worksheet)
  : string + Worksheet :=
  match range with
  | None => inl "InvalidArgument"
  | Some R =>
      let bound (active : option (Z * list string)) :=
        {| cells := cells ws;
           usedRange := usedRange ws;
           hiddenColumns := hiddenColumns ws;
           autoFilterRange := Some R;
           autoFilterCriteria := active;
           rowHeights := rowHeights ws;
           columnWidths := columnWidths ws |} in
      match criteria with
      | None => inr (bound None)
      | Some (k, c) =>
          if validColumn R k then
            match filterOn c with
            | values => inr (bound (Some (k, filterValues c)))
            | _ => inl "NotImplemented"
            end
          else inl "InvalidArgument"
      end
  end.

(** The rows of a filter range below its header row. *)
Definition isDataRow (R : Range) (r : Z) : bool :=
  (getRowIndex R <? r) && (r <? getRowIndex R + Z.pos (getRowCount R)).

(** Modelled from the spec: a row is hidden by the autofilter when it is a
    data row of the filter range whose text in the filtered column is not
    one of the values (section 4.5: set membership, no pattern). *)
Definition rowVisible (ws : Worksheet) (r : Z) : bool :=
  match autoFilterRange ws, autoFilterCriteria ws with
  | Some R, Some (k, shown) =>
      if isDataRow R r then
        bool_decide (cells ws r (getColumnIndex R + k) ∈ shown)
      else true
  | _, _ => true
  end.

(** *** Sorting *)

Definition lowerAscii (a : ascii) : ascii :=
  let n := nat_of_ascii a in
  if (65 <=? n)%nat && (n <=? 90)%nat then ascii_of_nat (n + 32) else a.

Fixpoint lower (s : string) : string :=
  match s with
  | EmptyString => EmptyString
  | String a s' => String (lowerAscii a) (lower s')
  end.

(** The order of two texts, with or without regard to case. *)
Definition textLe (matchCase : bool) (x y : string) : Prop :=
  if matchCase then String.le x y else String.le (lower x) (lower y).

Definition fieldLe (matchCase : bool) (f : SortField)
  : relation (list string) :=
  λ a b,
    let x := a !!! Z.to_nat (key f) in
    let y := b !!! Z.to_nat (key f) in
    if ascending f then textLe matchCase x y else textLe matchCase y x.

Global Instance textLe_dec matchCase : RelDecision (textLe matchCase).
Proof. intros x y. unfold textLe. destruct matchCase; apply _. Defined.

Global Instance fieldLe_dec matchCase f : RelDecision (fieldLe matchCase f).
Proof. intros a b. unfold fieldLe. destruct (ascending f); apply _. Defined.

(** Rows sorted by the fields, the first field being the most significant:
    a stable sort per field, from the last to the first. *)
Definition sortRows (matchCase : bool) (fields : list SortField)
    (rows : list (list string)) : list (list string) :=
  foldr (λ f rs, merge_sort (fieldLe matchCase f) rs) rows fields.

(** Modelled from the spec: [range.getSort().apply(fields, matchCase,
    hasHeaders)] of section 4.4.  The rows of the range are rearranged
    inside the range; a header row stays first. *)
Definition sortApply (R : Range) (fields : list SortField)
    (matchCase hasHeaders : bool) (ws : Worksheet) : string + Worksheet :=
  if forallb (λ f, validColumn R (key f)) fields then
    let block := getValues R (cells ws) in
    inr {| cells :=
             setValues R
               (headerOf hasHeaders block
                ++ sortRows matchCase fields (dataOf hasHeaders block))
               (cells ws);
           usedRange := usedRange ws;
           hiddenColumns := hiddenColumns ws;
           autoFilterRange := autoFilterRange ws;
           autoFilterCriteria := autoFilterCriteria ws;
           rowHeights := rowHeights ws;
           columnWidths := columnWidths ws |}
  else inl "InvalidArgument".

(** *** Duplicate removal *)

(** The texts of a row in the considered columns. *)
Definition rowKey (columns : list Z) (row : list string) : list string :=
  (λ k, row !!! Z.to_nat k) <$> columns.

(** The rows whose key was not seen before, in their order. *)
Fixpoint keepFirst (columns : list Z) (seen : list (list string))
    (rows : list (list string)) : list (list string) :=
  match rows with
  | [] => []
  | row :: rest =>
      if decide (rowKey columns row ∈ seen) then keepFirst columns seen rest
      else row :: keepFirst columns (rowKey columns row :: seen) rest
  end.

Definition blankRow (R : Range) : list string :=
  replicate (Pos.to_nat (getColumnCount R)) EmptyString.

(** Modelled from the spec: [range.removeDuplicates(columns,
    includesHeader)] of section 4.6.  The rows that repeat an earlier row on
    the considered columns are deleted and the rows below move up inside the
    range; a header row is neither compared nor deleted.  When the range is
    the used range, the used range ends at the last row that is left. *)
Definition removeDuplicatesOf (R : Range) (columns : list Z)
    (includesHeader : bool) (ws : Worksheet) : string + Worksheet :=
  if forallb (validColumn R) columns then
    let block := getValues R (cells ws) in
    let kept :=
      headerOf includesHeader block
      ++ keepFirst columns [] (dataOf includesHeader block) in
    inr {| cells :=
             setValues R
               (kept ++ replicate (length block - length kept) (blankRow R))
               (cells ws);
           usedRange :=
             if decide (R = usedRange ws) then
               {| getRowIndex := getRowIndex R;
                  getColumnIndex := getColumnIndex R;
                  getRowCount := Pos.of_nat (length kept);
                  getColumnCount := getColumnCount R |}
             else usedRange ws;
           hiddenColumns := hiddenColumns ws;
           autoFilterRange := autoFilterRange ws;
           autoFilterCriteria := autoFilterCriteria ws;
           rowHeights := rowHeights ws;
           columnWidths := columnWidths ws |}
  else inl "InvalidArgument".

(** *** Row heights and column widths *)

(** Modelled from the spec: [range.getFormat().setRowHeight(h)] of section
    4.7, the height of every row of the range. *)
Definition setRowHeightOf (R : Range) (h : Z) (ws : Worksheet)
  : string + Worksheet :=
  inr {| cells := cells ws;
         usedRange := usedRange ws;
         hiddenColumns := hiddenColumns ws;
         autoFilterRange := autoFilterRange ws;
         autoFilterCriteria := autoFilterCriteria ws;
         rowHeights := foldr (λ r m, <[r := h]> m) (rowHeights ws) (rowsOf R);
         columnWidths := columnWidths ws |}.

(** Modelled from the spec: the width that fits a column (glossary,
    autofit), that of the widest text in the visible rows of the used
    range. *)
Definition fitWidth (ws : Worksheet) (k : Z) : Z :=
  foldr Z.max 0
    ((λ r, Z.of_nat (String.length (cells ws r k)))
       <$> filter (λ r, rowVisible ws r = true) (rowsOf (usedRange ws))).

(** Modelled from the spec: [range.getFormat().autofitColumns()] of section
    4.8, each column of the range on its own. *)
Definition autofitColumnsOf (R : Range) (ws : Worksheet)
  : string + Worksheet :=
  inr {| cells := cells ws;
         usedRange := usedRange ws;
         hiddenColumns := hiddenColumns ws;
         autoFilterRange := autoFilterRange ws;
         autoFilterCriteria := autoFilterCriteria ws;
         rowHeights := rowHeights ws;
         columnWidths :=
           foldr (λ k m, <[k := fitWidth ws k]> m) (columnWidths ws)
                 (columnsOf R) |}.

(** The worksheet with other column widths. *)
Definition withColumnWidths (ws : Worksheet) (widths : gmap Z Z)
  : Worksheet :=
  {| cells := cells ws;
     usedRange := usedRange ws;
     hiddenColumns := hiddenColumns ws;
     autoFilterRange := autoFilterRange ws;
     autoFilterCriteria := autoFilterCriteria ws;
     rowHeights := rowHeights ws;
     columnWidths := widths |}.

(** A column identifier is a text [c] whose address [c:c] can be read. *)
Definition isColumnIdentifier (c : string) : Prop :=
  is_Some (columnSpan (c +:+ ":" +:+ c)).

(** The columns that a list of column identifiers names. *)
Definition columnsNamed (ws : Worksheet) (identifiers : list string)
  : list Z :=
  identifiers ≫= λ c,
    match getRange (c +:+ ":" +:+ c) ws with
    | inr R => columnsOf R
    | inl _ => []
    end.

Global Instance host : ExcelHost Worksheet := {|
  Worksheet_getRange := getRange;
  Worksheet_getUsedRange := usedRange;
  Worksheet_getAutoFilter_getRange := autoFilterRange;
  AutoFilter_apply := autoFilterApply;
  Range_setColumnHidden := setColumnHidden;
  RangeSort_apply := sortApply;
  Range_removeDuplicates := removeDuplicatesOf;
  RangeFormat_setRowHeight := setRowHeightOf;
  RangeFormat_autofitColumns := autofitColumnsOf
|}.

(** *** Worksheets written as tables *)

(** The worksheet whose used range starts at [(r0, c0)] and holds [table],
    a non-empty list of rows of [width] texts; nothing is hidden or
    filtered and no height or width was set. *)
Definition ofTable (r0 c0 : Z) (width : positive) (table : list (list string))
  : Worksheet :=
  let R := {| getRowIndex := r0; getColumnIndex := c0;
              getRowCount := Pos.of_nat (length table);
              getColumnCount := width |} in
  {| cells := setValues R table (λ _ _, EmptyString);
     usedRange := R;
     hiddenColumns := ∅;
     autoFilterRange := None;
     autoFilterCriteria := None;
     rowHeights := ∅;
     columnWidths := ∅ |}.

(** The texts of column [k] in the rows [rows]. *)
Definition columnValues (ws : Worksheet) (k : Z) (rows : list Z)
  : list string :=
  (λ r, cells ws r k) <$> rows.

(** The rows of a range below its first row. *)
Definition dataRowsOf (R : Range) : list Z :=
  seqZ (getRowIndex R + 1) (Z.pos (getRowCount R) - 1).

End Sheet.

(** ** Worksheets used as examples *)

Module Examples.
Import Sheet.

Definition finding (pluginId risk device host port name : string)
  : list string :=
  [ pluginId; ""; ""; risk; device; host; "tcp"; "www"; port; name;
    "synopsis"; "description"; "solution"; ""; "" ].

(** A merged scan: a header row, a pair of rows that agree on columns D
    to O, a row of risk [Info] and a row of risk [Critical]. *)
Definition scanTable : list (list string) :=
  [ [ "Plugin ID"; "CVE"; "CVSS"; "Risk"; "Device"; "Host"; "Protocol";
      "Service"; "Port"; "Name"; "Synopsis"; "Description"; "Solution";
      "See Also"; "Plugin Output" ];
    finding "19506" "Info" "fw-1" "10.0.0.1" "0" "Scan Information";
    finding "10287" "Low" "fw-1" "10.0.0.1" "0" "Traceroute";
    finding "51192" "Critical" "web-1" "10.0.0.7" "443" "Certificate";
    finding "10288" "Low" "fw-1" "10.0.0.1" "0" "Traceroute";
    finding "42873" "high" "web-1" "10.0.0.7" "443" "Cipher Suites" ].

Definition scan : Worksheet := ofTable 0 0 15 scanTable.

Definition scanRun : Runtime Worksheet :=
  mkRuntime "scan.xlsx" scan ∅ [].

(** The same workbook saved as another kind of file. *)
Definition csvRun : Runtime Worksheet :=
  mkRuntime "scan.csv" scan ∅ [].

(** [scan] once the filter is bound to columns D to O. *)
Definition filteredRun : Runtime Worksheet :=
  snd (filterColumns COLUMNS_TOBE_FILTERED scanRun).

Definition filterRange : Range :=
  {| getRowIndex := 0; getColumnIndex := 3;
     getRowCount := 6; getColumnCount := 12 |}.

(** A table that starts at column C, and a caller's array that names its
    columns D and E. *)
Definition shifted : Worksheet :=
  ofTable 0 2 3
    [ ["Id"; "Risk"; "Host"]; ["1"; "Low"; "a"]; ["2"; "Low"; "a"];
      ["3"; "High"; "b"] ].

Definition shiftedRun : Runtime Worksheet :=
  mkRuntime "shifted.xlsx" shifted {[ 0%nat := [3; 4] ]} [].

(** A worksheet with six used columns only. *)
Definition narrow : Worksheet :=
  ofTable 0 0 6
    [ ["Plugin ID"; "CVE"; "CVSS"; "Risk"; "Device"; "Host"];
      ["19506"; ""; ""; "Low"; "fw-1"; "10.0.0.1"];
      ["10287"; ""; ""; "High"; "fw-1"; "10.0.0.1"] ].

Definition narrowRun : Runtime Worksheet :=
  mkRuntime "narrow.xlsx" narrow ∅ [].

End Examples.

(** ** More of the script *)

(** The local [FILENAME] of [main]: the workbook name up to its last dot,
    or the whole name when it has no dot. *)
Definition FILENAME (FILENAME_WITH_EXTENSION : string) : string :=
  let FILENAME_EXTENSION_SEPARATOR_INDEX :=
    lastIndexOf FILENAME_WITH_EXTENSION "." in
  if FILENAME_EXTENSION_SEPARATOR_INDEX <? 0 then FILENAME_WITH_EXTENSION
  else substring0 FILENAME_WITH_EXTENSION
         (lastIndexOf FILENAME_WITH_EXTENSION ".").

(** A step that returns has written exactly these lines to the console. *)
Definition logs {W A} (m : Script W A) (lines : list string) : Prop :=
  ∀ σ a σ', m σ = (Normal a, σ') → console σ' = console σ ++ lines.

(** A step that throws leaves the state it was given. *)
Definition failsClean {W A} (m : Script W A) : Prop :=
  ∀ σ e σ', m σ = (Throw e, σ') → σ' = σ.

(** ** The column inserter *)

(** [ExcelScript.InsertShiftDirection] *)
Module InsertShiftDirection.
Inductive t : Type := down | right.
End InsertShiftDirection.

(** The two further host calls of [insertColumn]: [range.insert(shift)] and
    [range.setValue(value)]. *)
Class ExcelHostCells (W : Type) : Type := {
  Range_insert : Range → InsertShiftDirection.t → W → string + W;
  Range_setValue : Range → string → W → string + W
}.

(** [worksheet.getCell(row, column)]: the range of that one cell. *)
Definition Worksheet_getCell (row column : Z) : Range :=
  {| getRowIndex := row; getColumnIndex := column;
     getRowCount := 1; getColumnCount := 1 |}.

Definition quote : string := String "034"%char EmptyString.

Section Inserter.
Context {W : Type} `{ExcelHost W} `{ExcelHostCells W}.

(** [insertColumn(sheet, insertBeforeThisColumn, newColumnName,
    newColumnFields)].  The loop runs [i] from [firstRow] to [lastRow],
    both included. *)
Definition insertColumn
    (insertBeforeThisColumn newColumnName newColumnFields : string)
  : Script W unit :=
  let beforeColumnRangeString :=
    insertBeforeThisColumn +:+ ":" +:+ insertBeforeThisColumn in
  let* beforeColumnRange :=
    hostTry (Worksheet_getRange beforeColumnRangeString) in
  (* Insert the column, shifting existing columns to the right. *)
  hostDo (Range_insert beforeColumnRange InsertShiftDirection.right) ;;
  let* newColumnRange :=
    hostTry (Worksheet_getRange beforeColumnRangeString) in
  let* usedRange := hostGet Worksheet_getUsedRange in
  let firstRow := 1%nat in
  let lastRow :=
    getRowIndex usedRange + Z.pos (getRowCount usedRange) - 1 in
  let newColumnIndex := getColumnIndex newColumnRange in
  hostDo (Range_setValue (Worksheet_getCell 0 newColumnIndex) newColumnName)
  ;;
  forRange (Z.to_nat (lastRow - Z.of_nat firstRow + 1)) firstRow
    (λ i, hostDo (Range_setValue
                    (Worksheet_getCell (Z.of_nat i) newColumnIndex)
                    newColumnFields))
  ;;
  console_log ("Column " +:+ quote +:+ newColumnName +:+ quote
               +:+ " inserted at Column " +:+ insertBeforeThisColumn
               +:+ " populated with " +:+ quote +:+ newColumnFields
               +:+ quote).

End Inserter.

(** Modelled from the spec: the two host calls of the column inserter on
    the reference host (section 4.9): inserting columns shifts what is at
    or right of them to the right, and setting a value writes it to every
    cell of the range. *)
Module SheetCells.
Import Sheet.

(** Where a column is after [count] columns were inserted at [at_]. *)
Definition shiftColumn (at_ count k : Z) : Z :=
  if k <? at_ then k else k + count.

(** A range after the insertion: moved when the insertion is at or left of
    its first column, wider when it is inside, as it was when it is right
    of it. *)
Definition shiftRange (at_ count : Z) (R : Range) : Range :=
  if at_ <=? getColumnIndex R then
    {| getRowIndex := getRowIndex R;
       getColumnIndex := getColumnIndex R + count;
       getRowCount := getRowCount R;
       getColumnCount := getColumnCount R |}
  else if at_ <? getColumnIndex R + Z.pos (getColumnCount R) then
    {| getRowIndex := getRowIndex R;
       getColumnIndex := getColumnIndex R;
       getRowCount := getRowCount R;
       getColumnCount := Z.to_pos (Z.pos (getColumnCount R) + count) |}
  else R.

(** Modelled from the spec: [range.insert(shift)] for a range of whole
    columns and a shift to the right; the new cells are blank. *)
Definition insertOf (R : Range) (shift : InsertShiftDirection.t)
    (ws : Worksheet) : string + Worksheet :=
  match shift with
  | InsertShiftDirection.down => inl "NotImplemented"
  | InsertShiftDirection.right =>
      let at_ := getColumnIndex R in
      let count := Z.pos (getColumnCount R) in
      inr {| cells :=
               λ r k,
                 if inRows R r then
                   if k <? at_ then cells ws r k
                   else if k <? at_ + count then EmptyString
                   else cells ws r (k - count)
                 else cells ws r k;
             usedRange := shiftRange at_ count (usedRange ws);
             hiddenColumns :=
               list_to_set (shiftColumn at_ count
                              <$> elements (hiddenColumns ws));
             autoFilterRange := shiftRange at_ count <$> autoFilterRange ws;
             autoFilterCriteria := autoFilterCriteria ws;
             rowHeights := rowHeights ws;
             columnWidths :=
               list_to_map
                 ((λ kv, (shiftColumn at_ count (fst kv), snd kv))
                    <$> map_to_list (columnWidths ws)) |}
  end.

(** The smallest range that holds [R] and the cell [(r, k)]. *)
Definition extendTo (R : Range) (r k : Z) : Range :=
  let top := Z.min (getRowIndex R) r in
  let left := Z.min (getColumnIndex R) k in
  let bottom := Z.max (getRowIndex R + Z.pos (getRowCount R)) (r + 1) in
  let edge := Z.max (getColumnIndex R + Z.pos (getColumnCount R)) (k + 1) in
  {| getRowIndex := top; getColumnIndex := left;
     getRowCount := Z.to_pos (bottom - top);
     getColumnCount := Z.to_pos (edge - left) |}.

(** Modelled from the spec: [range.setValue(value)]; a text that is not
    blank makes the cells of the range part of the used range. *)
Definition setValueOf (R : Range) (value : string) (ws : Worksheet)
  : string + Worksheet :=
  inr {| cells :=
           λ r k, if inRows R r && inColumns R k then value
                  else cells ws r k;
         usedRange :=
           if decide (value = EmptyString) then usedRange ws
           else extendTo
                  (extendTo (usedRange ws) (getRowIndex R) (getColumnIndex R))
                  (getRowIndex R + Z.pos (getRowCount R) - 1)
                  (getColumnIndex R + Z.pos (getColumnCount R) - 1);
         hiddenColumns := hiddenColumns ws;
         autoFilterRange := autoFilterRange ws;
         autoFilterCriteria := autoFilterCriteria ws;
         rowHeights := rowHeights ws;
         columnWidths := columnWidths ws |}.

Global Instance hostCells : ExcelHostCells Worksheet := {|
  Range_insert := insertOf;
  Range_setValue := setValueOf
|}.

End SheetCells.



(** * Properties *)

(** ** Strings *)

Lemma substring_all (s : string) :
  String.substring 0 (String.length s) s = s.
Proof. induction s as [|a s IH]; simpl; [done | by rewrite IH]. Qed.

Lemma append_String (a : ascii) (p s : string) :
  String a p +:+ s = String a (p +:+ s).
Proof. reflexivity. Qed.

Lemma substring_skip (p s : string) (n : nat) :
  String.substring (String.length p) n (p +:+ s) = String.substring 0 n s.
Proof.
  induction p as [|a p IH]; [done|].
  rewrite append_String. simpl. apply IH.
Qed.

Lemma substring_split (s : string) (i : nat) :
  (i ≤ String.length s)%nat →
  s = String.substring 0 i s
      +:+ String.substring i (String.length s - i) s.
Proof.
  revert i. induction s as [|a s IH]; intros [|i] Hi; simpl in *;
    try done; try lia.
  - by rewrite substring_all.
  - rewrite append_String. f_equal. apply IH. lia.
Qed.

Lemma length_append (p s : string) :
  String.length (p +:+ s) = (String.length p + String.length s)%nat.
Proof.
  induction p as [|a p IH]; [done|].
  rewrite append_String. simpl. by rewrite IH.
Qed.

(** [endsWith] decides whether the text is some stem followed by the suffix. *)
Lemma endsWith_spec (s suffix : string) :
  endsWith s suffix = true ↔ ∃ stem, s = stem +:+ suffix.
Proof.
  unfold endsWith. rewrite andb_true_iff, Nat.leb_le, String.eqb_eq. split.
  - intros [Hle Hsuf].
    exists (String.substring 0 (String.length s - String.length suffix) s).
    pose proof (substring_split s
                  (String.length s - String.length suffix)) as Hsplit.
    replace (String.length s - (String.length s - String.length suffix))%nat
      with (String.length suffix) in Hsplit by lia.
    rewrite Hsuf in Hsplit. apply Hsplit. lia.
  - intros [stem ->]. rewrite length_append. split; [lia|].
    replace (String.length stem + String.length suffix
             - String.length suffix)%nat with (String.length stem) by lia.
    rewrite substring_skip. apply substring_all.
Qed.

(** ** The script on every host *)

Section ScriptFacts.
Context {W : Type} `{ExcelHost W}.

Implicit Types (σ : Runtime W) (e : Exception).

Lemma bind_Normal {A B} (m : Script W A) (k : A → Script W B) σ a σ' :
  m σ = (Normal a, σ') → bind m k σ = k a σ'.
Proof. unfold bind. by intros ->. Qed.

Lemma bind_Throw {A B} (m : Script W A) (k : A → Script W B) σ e σ' :
  m σ = (Throw e, σ') → bind m k σ = (Throw e, σ').
Proof. unfold bind. by intros ->. Qed.

Lemma bind_Throw_inv {A B} (m : Script W A) (k : A → Script W B) σ e σ' :
  bind m k σ = (Throw e, σ') →
  m σ = (Throw e, σ') ∨ ∃ a σ1, m σ = (Normal a, σ1) ∧ k a σ1 = (Throw e, σ').
Proof.
  unfold bind. destruct (m σ) as [[a|e1] σ1]; intros Hk.
  - right. eauto.
  - left. by injection Hk as -> ->.
Qed.

Lemma bind_ext {A B} (m : Script W A) (k k' : A → Script W B) σ :
  (∀ a σ1, k a σ1 = k' a σ1) → bind m k σ = bind m k' σ.
Proof. intros Hk. unfold bind. by destruct (m σ) as [[a|e] σ1]. Qed.

Lemma bind_ret_unit (m : Script W unit) σ : bind m (λ _, ret tt) σ = m σ.
Proof. unfold bind, ret. by destruct (m σ) as [[[]|e] σ1]. Qed.

(** *** Which exceptions a step can end with *)

Lemma onlyThrows_bind {A B} P (m : Script W A) (k : A → Script W B) :
  onlyThrows P m → (∀ a, onlyThrows P (k a)) → onlyThrows P (bind m k).
Proof.
  intros Hm Hk σ e σ' [Hthrow | (a & σ1 & _ & Hthrow)]%bind_Throw_inv.
  - by eapply Hm.
  - by eapply Hk.
Qed.

Lemma onlyThrows_ret {A} P (a : A) : onlyThrows (W := W) P (ret a).
Proof. by intros σ e σ'. Qed.

Lemma onlyThrows_console_log P line : onlyThrows (W := W) P (console_log line).
Proof. by intros σ e σ'. Qed.

Lemma onlyThrows_hostGet {A} P (f : W → A) : onlyThrows P (hostGet f).
Proof. by intros σ e σ'. Qed.

Lemma onlyThrows_newArray P xs : onlyThrows (W := W) P (newArray xs).
Proof. by intros σ e σ'. Qed.

Lemma onlyThrows_hostTry {A} (f : W → string + A) :
  onlyThrows external (hostTry f).
Proof.
  intros σ e σ'. unfold hostTry.
  destruct (f (activeWorksheet σ)); intros [= <- <-]; exact I.
Qed.

Lemma onlyThrows_hostDo (f : W → string + W) : onlyThrows external (hostDo f).
Proof.
  intros σ e σ'. unfold hostDo.
  destruct (f (activeWorksheet σ)); intros [= <- <-]; exact I.
Qed.

Lemma onlyThrows_readArray a : onlyThrows (W := W) external (readArray a).
Proof.
  intros σ e σ'. unfold readArray.
  destruct (arrays σ !! a); intros [= <- <-]; exact I.
Qed.

Lemma onlyThrows_arraySubAssign a i d :
  onlyThrows (W := W) external (arraySubAssign a i d).
Proof.
  intros σ e σ'. unfold arraySubAssign.
  destruct (arrays σ !! a) as [xs|]; [destruct (xs !! i)|];
    intros [= <- <-]; exact I.
Qed.

Lemma onlyThrows_forRange P n first body :
  (∀ i, onlyThrows (W := W) P (body i)) →
  onlyThrows P (forRange n first body).
Proof.
  intros Hbody. revert first.
  induction n as [|n IH]; intros first; simpl.
  - apply onlyThrows_ret.
  - apply onlyThrows_bind; auto.
Qed.

Lemma onlyThrows_forOf {A} P (xs : list A) body :
  (∀ x, onlyThrows (W := W) P (body x)) → onlyThrows P (forOf xs body).
Proof.
  intros Hbody. induction xs as [|x xs IH]; simpl.
  - apply onlyThrows_ret.
  - apply onlyThrows_bind; auto.
Qed.

Create HintDb throws discriminated.
#[local] Hint Resolve onlyThrows_ret onlyThrows_console_log
  onlyThrows_hostGet onlyThrows_newArray onlyThrows_hostTry
  onlyThrows_hostDo onlyThrows_readArray onlyThrows_arraySubAssign : throws.

Ltac throws :=
  repeat first
    [ apply onlyThrows_bind; [|intros ?]
    | apply onlyThrows_forRange; intros ?
    | apply onlyThrows_forOf; intros ?
    | solve [auto with throws] ].

Lemma hideColumns_throws c : onlyThrows external (hideColumns c).
Proof. unfold hideColumns. throws. Qed.

Lemma filterColumns_throws c : onlyThrows external (filterColumns c).
Proof. unfold filterColumns. throws. Qed.

Lemma onlyShowFiltered_throws i vs :
  onlyThrows external (onlyShowFiltered i vs).
Proof. unfold onlyShowFiltered. throws. Qed.

Lemma removeDuplicates_throws a : onlyThrows external (removeDuplicates a).
Proof. unfold removeDuplicates. throws. Qed.

Lemma autofitColumns_throws cs : onlyThrows external (autofitColumns cs).
Proof. unfold autofitColumns, autofitColumn. throws. Qed.

(** With a non-negative index, [sort] is past its guard. *)
Lemma sort_throws i : 0 ≤ i → onlyThrows external (sort i).
Proof.
  intros Hi. unfold sort.
  destruct (Z.ltb_spec i 0) as [?|_]; [lia|].
  apply onlyThrows_bind; [auto with throws|].
  intros [R|]; [throws | by intros σ e σ' [= <- <-]].
Qed.

(** With a positive height, [setRowHeight] is past its guard. *)
Lemma setRowHeight_throws h : 0 < h → onlyThrows external (setRowHeight h).
Proof.
  intros Hh. unfold setRowHeight.
  destruct (Z.leb_spec h 0) as [?|_]; [lia|]. throws.
Qed.

Lemma pipeline_throws :
  Forall (onlyThrows external) (pipeline (W := W)).
Proof.
  unfold pipeline. repeat constructor.
  - apply hideColumns_throws.
  - apply filterColumns_throws.
  - by apply sort_throws.
  - apply onlyThrows_bind; [auto with throws|].
    intros a. apply removeDuplicates_throws.
  - by apply setRowHeight_throws.
  - apply onlyShowFiltered_throws.
  - apply autofitColumns_throws.
Qed.

Lemma runSteps_throws P (steps : list (Script W unit)) :
  Forall (onlyThrows P) steps → onlyThrows P (runSteps steps).
Proof.
  induction 1; simpl.
  - apply onlyThrows_ret.
  - by apply onlyThrows_bind.
Qed.

(** *** The run as a sequence of steps *)

Lemma main_wrong_kind σ :
  endsWith (workbookName σ) ".xlsx" = false →
  main σ = (Throw (Error WRONG_FILE_KIND), σ).
Proof. intros Hname. unfold main, bind, Workbook_getName. by rewrite Hname. Qed.

Lemma main_pipeline σ :
  endsWith (workbookName σ) ".xlsx" = true →
  main σ = runSteps pipeline σ.
Proof.
  intros Hname. unfold main, Workbook_getName.
  unfold bind at 1. rewrite Hname. simpl negb. cbv iota.
  unfold pipeline, runSteps.
  do 6 (apply bind_ext; intros _ ?).
  symmetry. apply bind_ret_unit.
Qed.

Lemma runSteps_abort (pre post : list (Script W unit)) step σ σ1 e σ2 :
  runSteps pre σ = (Normal tt, σ1) →
  step σ1 = (Throw e, σ2) →
  runSteps (pre ++ step :: post) σ = (Throw e, σ2).
Proof.
  revert σ. induction pre as [|s pre IH]; intros σ Hpre Hstep; simpl in *.
  - injection Hpre as <-. by apply bind_Throw.
  - unfold bind in *. destruct (s σ) as [[[]|e0] σ0]; [eauto | done].
Qed.

Lemma runSteps_Throw_inv (steps : list (Script W unit)) σ e σ2 :
  runSteps steps σ = (Throw e, σ2) →
  ∃ pre step post σ1,
    steps = pre ++ step :: post
    ∧ runSteps pre σ = (Normal tt, σ1)
    ∧ step σ1 = (Throw e, σ2).
Proof.
  revert σ. induction steps as [|s steps IH]; intros σ Hrun; simpl in *.
  - done.
  - apply bind_Throw_inv in Hrun as [Hs | ([] & σ0 & Hs & Hrest)].
    + by exists [], s, steps, σ.
    + destruct (IH _ Hrest) as (pre & step & post & σ1 & -> & Hpre & Hstep).
      exists (s :: pre), step, post, σ1. split_and!; [done| |done].
      simpl. by rewrite (bind_Normal _ _ _ _ _ Hs).
Qed.

(** *** The translation loop of [removeDuplicates] *)

Lemma forRange_subAssign a d n : ∀ pre suf σ,
  arrays σ !! a = Some (pre ++ suf) →
  length suf = n →
  forRange n (length pre) (λ i, arraySubAssign a i d) σ
  = (Normal tt,
     mkRuntime (workbookName σ) (activeWorksheet σ)
       (<[a := pre ++ ((λ x, x - d) <$> suf)]> (arrays σ)) (console σ)).
Proof.
  induction n as [|n IH]; intros pre suf σ Ha Hlen.
  - destruct suf; [|done]. simpl. unfold ret.
    rewrite insert_id by done. by destruct σ.
  - destruct suf as [|x suf]; [done|]. simpl in Hlen.
    cbn [forRange]. unfold bind at 1.
    unfold arraySubAssign at 1. rewrite Ha, list_lookup_middle by done.
    replace (S (length pre)) with (length (pre ++ [x - d]))
      by (rewrite length_app; simpl; lia).
    rewrite (IH (pre ++ [x - d]) suf); simpl; [|  | lia].
    + rewrite insert_insert_eq. do 3 f_equal.
      by rewrite <- app_assoc.
    + rewrite lookup_insert_eq. f_equal.
      replace (length pre) with (length pre + 0)%nat by lia.
      rewrite insert_app_r. simpl. by rewrite <- app_assoc.
Qed.

(** What [removeDuplicates] does with the array it is given and with the
    worksheet. *)
Lemma removeDuplicates_run a xs σ :
  arrays σ !! a = Some xs →
  let usedRange := Worksheet_getUsedRange (activeWorksheet σ) in
  let translated := (λ x, x - getColumnIndex usedRange) <$> xs in
  removeDuplicates a σ
  = match Range_removeDuplicates usedRange translated true
            (activeWorksheet σ) with
    | inr w' =>
        (Normal tt,
         mkRuntime (workbookName σ) w' (<[a := translated]> (arrays σ))
           (console σ ++ ["Duplicates removed."]))
    | inl code =>
        (Throw (HostError code),
         mkRuntime (workbookName σ) (activeWorksheet σ)
           (<[a := translated]> (arrays σ)) (console σ))
    end.
Proof.
  intros Ha usedRange translated. unfold removeDuplicates.
  unfold bind at 1. unfold hostGet at 1.
  unfold bind at 1. unfold readArray at 1. rewrite Ha.
  unfold bind at 1.
  rewrite (forRange_subAssign a _ (length xs) [] xs σ Ha eq_refl).
  unfold bind at 1. unfold readArray at 1. simpl arrays.
  rewrite lookup_insert_eq. simpl app.
  unfold bind, hostDo, console_log. simpl.
  fold usedRange. fold translated.
  by destruct (Range_removeDuplicates usedRange translated true
                 (activeWorksheet σ)).
Qed.

(** *** Claims that hold on every host *)

(** C3. A workbook whose name is not a stem followed by [.xlsx] makes
    [main] throw the error that names the required file kind, and the state
    it leaves is the state it was given: the worksheet, the arrays and the
    console are untouched, so no step of the pipeline ran. *)
Theorem main_rejects_other_file_kinds σ :
  ¬ (∃ stem, workbookName σ = stem +:+ ".xlsx") →
  main σ = (Throw (Error WRONG_FILE_KIND), σ).
Proof.
  intros Hname. apply main_wrong_kind.
  destruct (endsWith (workbookName σ) ".xlsx") eqn:Hends; [|done].
  by apply endsWith_spec in Hends.
Qed.

(** C5. With a negative column index, [sort] throws the [RangeError] of
    its guard and leaves the state, hence the worksheet, as it was. *)
Theorem sort_negative_index σ (columnIndex : Z) :
  columnIndex < 0 →
  sort columnIndex σ
  = (Throw (RangeError ("columnIndex = " +:+ numberToString columnIndex
                        +:+ " cannot be less than 0.")), σ).
Proof.
  intros Hneg. unfold sort.
  by destruct (Z.ltb_spec columnIndex 0) as [_|?]; [|lia].
Qed.

(** C7. [removeDuplicates] updates the caller's array in place: whether
    the host call then returns or fails, the array the caller passed holds
    each of its elements minus the column offset of the used range, no
    other array is changed and no array is created. *)
Theorem removeDuplicates_translates_in_place σ (consideredColumns : nat)
    (elements : list Z) :
  arrays σ !! consideredColumns = Some elements →
  ∃ completion σ',
    removeDuplicates consideredColumns σ = (completion, σ')
    ∧ arrays σ' !! consideredColumns
      = Some ((λ x, x - getColumnIndex
                          (Worksheet_getUsedRange (activeWorksheet σ)))
              <$> elements)
    ∧ (∀ other, other ≠ consideredColumns →
                arrays σ' !! other = arrays σ !! other)
    ∧ dom (arrays σ') = dom (arrays σ).
Proof.
  intros Ha. rewrite (removeDuplicates_run _ _ _ Ha).
  assert (consideredColumns ∈ dom (arrays σ)) as Hdom
    by by eapply elem_of_dom_2.
  destruct (Range_removeDuplicates _ _ _ _); eexists _, _;
    (split; [reflexivity|]); simpl;
    (split_and!;
     [ apply lookup_insert_eq
     | intros other Hne; by rewrite lookup_insert_ne
     | rewrite dom_insert_L; apply subseteq_union_1_L;
       by apply singleton_subseteq_l ]).
Qed.

(** C8. A run of [main] that ends with an exception either stopped at
    the file-kind check, with the state untouched, or stopped at one step of
    the pipeline: the steps before it completed, the state the run leaves is
    the one the failing step left from theirs (nothing is rolled back), and
    the steps after it had no part in it, whatever they are. *)
Theorem main_aborts_without_rollback σ e σ' :
  main σ = (Throw e, σ') →
  (endsWith (workbookName σ) ".xlsx" = false
   ∧ e = Error WRONG_FILE_KIND ∧ σ' = σ)
  ∨ (∃ completed failing remaining σ1,
       pipeline = completed ++ failing :: remaining
       ∧ runSteps completed σ = (Normal tt, σ1)
       ∧ failing σ1 = (Throw e, σ')
       ∧ ∀ others,
           runSteps (completed ++ failing :: others) σ = (Throw e, σ')).
Proof.
  intros Hmain.
  destruct (endsWith (workbookName σ) ".xlsx") eqn:Hname.
  - right. rewrite (main_pipeline _ Hname) in Hmain.
    destruct (runSteps_Throw_inv _ _ _ _ Hmain)
      as (pre & step & post & σ1 & Hsplit & Hpre & Hstep).
    exists pre, step, post, σ1. split_and!; [done..|].
    intros others. by eapply runSteps_abort.
  - left. rewrite (main_wrong_kind _ Hname) in Hmain.
    by injection Hmain as <- <-.
Qed.

(** C10. In [main] the guards of [sort] and [setRowHeight] are passed:
    the index is 3 and the height is 14.  Hence an exception that ends
    [main] is never a [RangeError], and it is an [Error] only as the
    file-kind error of a workbook whose name does not end in [.xlsx];
    every other exception comes from the host or the runtime. *)
Theorem main_only_throws_file_kind_error σ e σ' :
  main σ = (Throw e, σ') →
  (RISK_COLUMN <? 0) = false
  ∧ (UNIFIED_ROW_HEIGHT <=? 0) = false
  ∧ (∀ message, e ≠ RangeError message)
  ∧ (∀ message, e = Error message →
       message = WRONG_FILE_KIND
       ∧ endsWith (workbookName σ) ".xlsx" = false ∧ σ' = σ)
  ∧ (e = Error WRONG_FILE_KIND ∨ external e).
Proof.
  intros Hmain. split; [done|]. split; [done|].
  destruct (endsWith (workbookName σ) ".xlsx") eqn:Hname.
  - rewrite (main_pipeline _ Hname) in Hmain.
    pose proof (runSteps_throws _ _ pipeline_throws _ _ _ Hmain) as Hext.
    split_and!; [| |by right]; intros message ->; destruct Hext.
  - rewrite (main_wrong_kind _ Hname) in Hmain.
    injection Hmain as <- <-.
    split_and!; [done| |by left]. by intros message [= <-].
Qed.

End ScriptFacts.

(** ** The script on the reference host *)

Section SheetFacts.
Import Sheet.

Implicit Types (σ : Runtime Worksheet) (ws : Worksheet) (R : Range).

(** *** Ranges *)

Lemma inRows_spec R r :
  inRows R r = true
  ↔ getRowIndex R ≤ r < getRowIndex R + Z.pos (getRowCount R).
Proof. unfold inRows. rewrite andb_true_iff, Z.leb_le, Z.ltb_lt. done. Qed.

Lemma inColumns_spec R k :
  inColumns R k = true
  ↔ getColumnIndex R ≤ k < getColumnIndex R + Z.pos (getColumnCount R).
Proof. unfold inColumns. rewrite andb_true_iff, Z.leb_le, Z.ltb_lt. done. Qed.

Lemma validColumn_spec R k :
  validColumn R k = true ↔ 0 ≤ k < Z.pos (getColumnCount R).
Proof. unfold validColumn. rewrite andb_true_iff, Z.leb_le, Z.ltb_lt. done. Qed.

Lemma elem_of_rowsOf R r : r ∈ rowsOf R ↔ inRows R r = true.
Proof. unfold rowsOf. by rewrite elem_of_seqZ, inRows_spec. Qed.

Lemma length_getValues R c :
  length (getValues R c) = Pos.to_nat (getRowCount R).
Proof.
  unfold getValues, rowsOf. rewrite length_fmap, length_seqZ. lia.
Qed.

Lemma width_getValues R c :
  Forall (λ row, length row = Pos.to_nat (getColumnCount R)) (getValues R c).
Proof.
  unfold getValues. apply Forall_fmap, Forall_forall. intros r _. simpl.
  unfold columnsOf. rewrite length_fmap, length_seqZ. lia.
Qed.

(** The text of a cell of the range, read from the values of the range. *)
Lemma getValues_cell R c r k :
  inRows R r = true → inColumns R k = true →
  (getValues R c !!! Z.to_nat (r - getRowIndex R))
    !!! Z.to_nat (k - getColumnIndex R)
  = c r k.
Proof.
  intros Hr%inRows_spec Hk%inColumns_spec.
  erewrite (list_lookup_total_correct (getValues R c)); last first.
  { unfold getValues, rowsOf.
    rewrite list_lookup_fmap, lookup_seqZ_lt by lia. reflexivity. }
  erewrite list_lookup_total_correct; last first.
  { unfold columnsOf.
    rewrite list_lookup_fmap, lookup_seqZ_lt by lia. reflexivity. }
  f_equal; lia.
Qed.

Lemma setValues_inside R vs c r k :
  inRows R r = true → inColumns R k = true →
  setValues R vs c r k
  = (vs !!! Z.to_nat (r - getRowIndex R))
      !!! Z.to_nat (k - getColumnIndex R).
Proof. intros Hr Hk. unfold setValues. by rewrite Hr, Hk. Qed.

Lemma setValues_outside R vs c r k :
  inRows R r && inColumns R k = false → setValues R vs c r k = c r k.
Proof. intros Hout. unfold setValues. by rewrite Hout. Qed.

(** Values written to a range are the values read from it. *)
Lemma getValues_setValues R vs c :
  length vs = Pos.to_nat (getRowCount R) →
  Forall (λ row, length row = Pos.to_nat (getColumnCount R)) vs →
  getValues R (setValues R vs c) = vs.
Proof.
  intros Hrows Hwidth. apply list_eq_same_length with (length vs);
    [done | by rewrite length_getValues |].
  intros i row1 row2 Hi Hrow1 Hrow2.
  unfold getValues in Hrow1. rewrite list_lookup_fmap in Hrow1.
  unfold rowsOf in Hrow1. rewrite lookup_seqZ_lt in Hrow1 by lia.
  simpl in Hrow1. injection Hrow1 as <-.
  pose proof (Forall_lookup_1 _ _ _ _ Hwidth Hrow2) as Hlen. simpl in Hlen.
  apply list_eq_same_length with (length row2);
    [done | by unfold columnsOf; rewrite length_fmap, length_seqZ; lia |].
  intros j x y Hj Hx Hy.
  rewrite list_lookup_fmap in Hx. unfold columnsOf in Hx.
  rewrite lookup_seqZ_lt in Hx by lia. simpl in Hx. injection Hx as <-.
  rewrite setValues_inside
    by (rewrite ?inRows_spec, ?inColumns_spec; lia).
  replace (Z.to_nat (getRowIndex R + Z.of_nat i - getRowIndex R))
    with i by lia.
  replace (Z.to_nat (getColumnIndex R + Z.of_nat j - getColumnIndex R))
    with j by lia.
  rewrite (list_lookup_total_correct _ _ _ Hrow2).
  by rewrite (list_lookup_total_correct _ _ _ Hy).
Qed.

(** The rows of a range with the same corner and fewer rows. *)
Lemma getValues_fewer_rows R (n : positive) c :
  (Pos.to_nat n ≤ Pos.to_nat (getRowCount R))%nat →
  getValues {| getRowIndex := getRowIndex R;
               getColumnIndex := getColumnIndex R;
               getRowCount := n;
               getColumnCount := getColumnCount R |} c
  = take (Pos.to_nat n) (getValues R c).
Proof.
  intros Hn. unfold getValues, rowsOf, columnsOf. simpl.
  rewrite <- fmap_take. f_equal.
  replace (Z.pos (getRowCount R))
    with (Z.pos n + (Z.pos (getRowCount R) - Z.pos n)) by lia.
  rewrite seqZ_app by lia.
  rewrite take_app_length'; [done | rewrite length_seqZ; lia].
Qed.

(** A column of the range, read below the first row of the range. *)
Lemma columnValues_data R ws k :
  inColumns R k = true →
  columnValues ws k (dataRowsOf R)
  = (λ row, row !!! Z.to_nat (k - getColumnIndex R))
      <$> drop 1 (getValues R (cells ws)).
Proof.
  intros Hk%inColumns_spec. unfold columnValues, getValues, dataRowsOf.
  rewrite <- fmap_drop, <- list_fmap_compose. unfold rowsOf.
  rewrite (seqZ_cons (getRowIndex R)) by lia. simpl drop. rewrite drop_0.
  replace (Z.succ (getRowIndex R)) with (getRowIndex R + 1) by lia.
  replace (Z.pred (Z.pos (getRowCount R)))
    with (Z.pos (getRowCount R) - 1) by lia.
  apply list_fmap_ext. intros _ r _. simpl.
  erewrite list_lookup_total_correct; last first.
  { unfold columnsOf.
    rewrite list_lookup_fmap, lookup_seqZ_lt by lia. reflexivity. }
  f_equal. lia.
Qed.

(** *** Row heights *)

Lemma lookup_foldr_insert {A} (F : Z → A) (m : gmap Z A) (ks : list Z) k :
  foldr (λ i acc, <[i := F i]> acc) m ks !! k
  = if decide (k ∈ ks) then Some (F k) else m !! k.
Proof.
  induction ks as [|i ks IH]; cbn [foldr].
  - case_decide as Hin; [by apply elem_of_nil in Hin | done].
  - destruct (decide (i = k)) as [->|Hne].
    + rewrite lookup_insert_eq. by rewrite decide_True by left.
    + rewrite lookup_insert_ne, IH by done.
      repeat case_decide; try done.
      * exfalso. auto using list_elem_of_further.
      * exfalso. by decompose_list_elem_of.
Qed.

(** C6. With a positive height, [setRowHeight] returns and every row of
    the used range has exactly that height, the other rows keeping theirs;
    with a height of 0 or less it throws the [RangeError] of its guard and
    leaves the state, hence every row, as it was. *)
Theorem setRowHeight_normalizes σ (rowHeight : Z) :
  (0 < rowHeight →
   ∃ σ', setRowHeight rowHeight σ = (Normal tt, σ')
     ∧ usedRange (activeWorksheet σ') = usedRange (activeWorksheet σ)
     ∧ (∀ r, inRows (usedRange (activeWorksheet σ)) r = true →
             rowHeights (activeWorksheet σ') !! r = Some rowHeight)
     ∧ (∀ r, inRows (usedRange (activeWorksheet σ)) r = false →
             rowHeights (activeWorksheet σ') !! r
             = rowHeights (activeWorksheet σ) !! r))
  ∧ (rowHeight ≤ 0 →
     setRowHeight rowHeight σ
     = (Throw (RangeError ("rowHeight = " +:+ numberToString rowHeight
                 +:+ " cannot be less than or equal to 0.")), σ)).
Proof.
  unfold setRowHeight. split; intros Hh.
  - destruct (Z.leb_spec rowHeight 0) as [?|_]; [lia|].
    eexists. split; [reflexivity|]. simpl. split; [done|].
    split; intros r Hr; rewrite (lookup_foldr_insert (λ _, rowHeight)).
    + by rewrite decide_True by by apply elem_of_rowsOf.
    + rewrite decide_False; [done|].
      rewrite elem_of_rowsOf. by rewrite Hr.
  - by destruct (Z.leb_spec rowHeight 0) as [_|?]; [|lia].
Qed.

(** *** The category filter *)

(** C1. With an autofilter bound to a range, [onlyShowFiltered] returns and
    the autofilter holds a values filter on column 0 of that range, whatever
    the column index it was given: the worksheet it leaves is the same for
    every index.  Afterwards a data row of the filter range is visible if
    and only if its text in the first column of the range is one of the
    values to be shown; the header row of the range and the rows outside
    it stay visible.  No cell and no part of the used range is changed, so
    the hidden rows are still there. *)
Theorem onlyShowFiltered_filters_first_column σ (columnIndex : Z)
    (valuesTobeShown : list string) R :
  autoFilterRange (activeWorksheet σ) = Some R →
  ∃ σ',
    onlyShowFiltered columnIndex valuesTobeShown σ = (Normal tt, σ')
    ∧ autoFilterRange (activeWorksheet σ') = Some R
    ∧ autoFilterCriteria (activeWorksheet σ') = Some (0, valuesTobeShown)
    ∧ (∀ otherIndex,
         activeWorksheet (snd (onlyShowFiltered otherIndex valuesTobeShown σ))
         = activeWorksheet σ')
    ∧ (∀ r, isDataRow R r = true →
         (rowVisible (activeWorksheet σ') r = true
          ↔ cells (activeWorksheet σ) r (getColumnIndex R + 0)
            ∈ valuesTobeShown))
    ∧ (∀ r, isDataRow R r = false →
         rowVisible (activeWorksheet σ') r = true)
    ∧ cells (activeWorksheet σ') = cells (activeWorksheet σ)
    ∧ usedRange (activeWorksheet σ') = usedRange (activeWorksheet σ).
Proof.
  intros HR.
  assert (∀ i, onlyShowFiltered i valuesTobeShown σ
    = (Normal tt,
       mkRuntime (workbookName σ)
         {| cells := cells (activeWorksheet σ);
            usedRange := usedRange (activeWorksheet σ);
            hiddenColumns := hiddenColumns (activeWorksheet σ);
            autoFilterRange := Some R;
            autoFilterCriteria := Some (0, valuesTobeShown);
            rowHeights := rowHeights (activeWorksheet σ);
            columnWidths := columnWidths (activeWorksheet σ) |}
         (arrays σ)
         (console σ
          ++ ["Table only show filtered at column " +:+ numberToString i
              +:+ " with values " +:+ arrayToString valuesTobeShown
              +:+ "."]))) as Hrun.
  { intros i. unfold onlyShowFiltered, bind, hostGet, hostDo. simpl.
    rewrite HR. simpl. done. }
  eexists. split; [apply Hrun|]. simpl.
  split_and!; try done.
  - intros i. by rewrite Hrun.
  - intros r Hr. unfold rowVisible. simpl. rewrite Hr.
    by rewrite bool_decide_eq_true.
  - intros r Hr. unfold rowVisible. simpl. by rewrite Hr.
Qed.

(** *** Sorting *)

Global Instance textLe_total matchCase : Total (textLe matchCase).
Proof. intros x y. unfold textLe. destruct matchCase; apply total, _. Qed.

Global Instance fieldLe_total matchCase f : Total (fieldLe matchCase f).
Proof.
  intros a b. unfold fieldLe.
  destruct (ascending f); apply (total (textLe matchCase)).
Qed.

Lemma sortRows_Permutation matchCase fields rows :
  sortRows matchCase fields rows ≡ₚ rows.
Proof.
  unfold sortRows. induction fields as [|f fields IH]; simpl; [done|].
  by rewrite merge_sort_Permutation.
Qed.

(** The block written back by a sort or a duplicate removal starts with
    the header row of the block it was read from. *)
Lemma header_data (block : list (list string)) :
  (0 < length block)%nat →
  ∃ header, headerOf true block = [header]
            ∧ block = header :: dataOf true block.
Proof. destruct block as [|header data]; simpl; [lia | eauto]. Qed.

(** What [sort] does on the reference host with a column of the filter
    range. *)
Lemma sort_run σ (columnIndex : Z) R :
  autoFilterRange (activeWorksheet σ) = Some R →
  0 ≤ columnIndex →
  inColumns R columnIndex = true →
  let ws := activeWorksheet σ in
  let field := {| key := columnIndex - getColumnIndex R;
                  ascending := true |} in
  let block := getValues R (cells ws) in
  sort columnIndex σ
  = (Normal tt,
     mkRuntime (workbookName σ)
       {| cells :=
            setValues R
              (headerOf true block
               ++ merge_sort (fieldLe false field) (dataOf true block))
              (cells ws);
          usedRange := usedRange ws;
          hiddenColumns := hiddenColumns ws;
          autoFilterRange := autoFilterRange ws;
          autoFilterCriteria := autoFilterCriteria ws;
          rowHeights := rowHeights ws;
          columnWidths := columnWidths ws |}
       (arrays σ)
       (console σ
        ++ ["Table sorted by column " +:+ numberToString columnIndex
            +:+ "."])).
Proof.
  intros HR Hidx Hcol%inColumns_spec. unfold sort.
  destruct (Z.ltb_spec columnIndex 0) as [?|_]; [lia|].
  unfold bind, hostGet, hostDo, console_log. simpl.
  rewrite HR. simpl. unfold sortApply. simpl.
  assert (validColumn R (columnIndex - getColumnIndex R) = true) as ->
    by (apply validColumn_spec; lia).
  simpl. by rewrite HR.
Qed.

(** C2, as amended.  With an autofilter bound to a range and a
    non-negative column index that names a column of that range, [sort]
    returns; the host was asked to sort the range by the single key
    [columnIndex - getColumnIndex R], ascending, without regard to case and
    with a header row.  Afterwards the first row of the range is as it
    was, the rows below it are the same rows in another order, the cells
    outside the range are as they were, and the texts of the column in
    the rows below the header are in non-decreasing order without regard
    to case. *)
Theorem sort_orders_filter_range σ (columnIndex : Z) R :
  autoFilterRange (activeWorksheet σ) = Some R →
  0 ≤ columnIndex →
  inColumns R columnIndex = true →
  ∃ σ',
    sort columnIndex σ = (Normal tt, σ')
    ∧ RangeSort_apply R
        [ {| key := columnIndex - getColumnIndex R; ascending := true |} ]
        false true (activeWorksheet σ)
      = inr (activeWorksheet σ')
    ∧ (∀ k, cells (activeWorksheet σ') (getRowIndex R) k
            = cells (activeWorksheet σ) (getRowIndex R) k)
    ∧ dataOf true (getValues R (cells (activeWorksheet σ')))
      ≡ₚ dataOf true (getValues R (cells (activeWorksheet σ)))
    ∧ (∀ r k, inRows R r && inColumns R k = false →
              cells (activeWorksheet σ') r k = cells (activeWorksheet σ) r k)
    ∧ Sorted (textLe false)
        (columnValues (activeWorksheet σ') columnIndex (dataRowsOf R)).
Proof.
  intros HR Hidx Hcol.
  eexists. split; [by apply sort_run|].
  set (field := {| key := columnIndex - getColumnIndex R;
                   ascending := true |}).
  set (block := getValues R (cells (activeWorksheet σ))).
  set (sorted := merge_sort (fieldLe false field) (dataOf true block)).
  cbn [activeWorksheet cells].
  destruct (header_data block) as (header & Hheader & Hblock).
  { unfold block. rewrite length_getValues. lia. }
  assert (getValues R (setValues R (headerOf true block ++ sorted)
                         (cells (activeWorksheet σ)))
          = header :: sorted) as Hafter.
  { rewrite Hheader. apply getValues_setValues.
    - simpl. unfold sorted. rewrite merge_sort_Permutation.
      rewrite <- (length_getValues R (cells (activeWorksheet σ))).
      fold block. by rewrite Hblock at 2.
    - assert (Forall (λ row, length row = Pos.to_nat (getColumnCount R))
                (header :: dataOf true block)) as Hwidth.
      { rewrite <- Hblock. apply width_getValues. }
      apply Forall_cons in Hwidth as [Hh Hd].
      apply Forall_cons. split; [done|].
      unfold sorted. by rewrite merge_sort_Permutation. }
  split_and!.
  - simpl. unfold sortApply. simpl.
    apply inColumns_spec in Hcol.
    assert (validColumn R (columnIndex - getColumnIndex R) = true) as ->
      by (apply validColumn_spec; lia).
    done.
  - intros k. destruct (inColumns R k) eqn:Hk.
    + assert (inRows R (getRowIndex R) = true) as Hrow
        by (apply inRows_spec; lia).
      rewrite <- (getValues_cell R
                    (setValues R (headerOf true block ++ sorted)
                       (cells (activeWorksheet σ))) _ k Hrow Hk).
      rewrite <- (getValues_cell R (cells (activeWorksheet σ)) _ k Hrow Hk).
      rewrite Hafter. fold block. rewrite Z.sub_diag.
      pose proof (f_equal (λ b, b !!! 0%nat) Hblock) as Hfirst.
      simpl in Hfirst. change (Z.to_nat 0) with 0%nat.
      by rewrite Hfirst.
    + apply setValues_outside. by rewrite Hk, andb_false_r.
  - rewrite Hafter. simpl. rewrite drop_0. apply merge_sort_Permutation.
  - intros r k Hout. by apply setValues_outside.
  - rewrite columnValues_data by done. cbn [cells].
    rewrite Hafter. simpl. rewrite drop_0.
    apply (Sorted_fmap _ (fieldLe false field)); [done|].
    apply Sorted_merge_sort, _.
Qed.

(** *** Duplicate removal *)

Lemma keepFirst_sublist columns seen rows :
  keepFirst columns seen rows `sublist_of` rows.
Proof.
  revert seen. induction rows as [|row rows IH]; intros seen; simpl.
  - constructor.
  - case_decide; [apply sublist_cons | apply sublist_skip]; apply IH.
Qed.

Lemma keepFirst_unseen columns seen rows row :
  row ∈ keepFirst columns seen rows → rowKey columns row ∉ seen.
Proof.
  revert seen. induction rows as [|first rows IH]; intros seen; simpl.
  - by intros ?%elem_of_nil.
  - case_decide as Hseen; [apply IH|].
    intros [->|Hin]%elem_of_cons; [done|].
    apply IH in Hin. intros ?. apply Hin. by right.
Qed.

Lemma keepFirst_NoDup columns seen rows :
  NoDup (rowKey columns <$> keepFirst columns seen rows).
Proof.
  revert seen. induction rows as [|first rows IH]; intros seen; simpl.
  - constructor.
  - case_decide as Hseen; [apply IH|].
    rewrite fmap_cons. apply NoDup_cons. split; [|apply IH].
    intros (row & Hkey & Hin)%list_elem_of_fmap.
    apply keepFirst_unseen in Hin. apply Hin. rewrite <- Hkey. by left.
Qed.

Lemma keepFirst_complete columns seen rows row :
  row ∈ rows →
  rowKey columns row ∈ seen
  ∨ rowKey columns row ∈ rowKey columns <$> keepFirst columns seen rows.
Proof.
  revert seen. induction rows as [|first rows IH]; intros seen; simpl.
  - by intros ?%elem_of_nil.
  - intros [->|Hin]%elem_of_cons.
    + case_decide as Hseen; [by left|]. right. rewrite fmap_cons. by left.
    + case_decide as Hseen; [by apply IH|].
      destruct (IH (rowKey columns first :: seen) Hin)
        as [[->|Hs]%elem_of_cons|Hk].
      * right. rewrite fmap_cons. by left.
      * by left.
      * right. rewrite fmap_cons. by right.
Qed.

(** A translated index names a column of the used range exactly when the
    index it comes from is one of the columns of the used range. *)
Lemma validColumn_translated R (columns : list Z) :
  forallb (validColumn R) ((λ x, x - getColumnIndex R) <$> columns) = true
  ↔ Forall (λ c, inColumns R c = true) columns.
Proof.
  rewrite forallb_forall, Forall_forall. setoid_rewrite <- list_elem_of_In.
  setoid_rewrite list_elem_of_fmap. split.
  - intros Hvalid c Hc. apply inColumns_spec.
    specialize (Hvalid (c - getColumnIndex R)).
    rewrite validColumn_spec in Hvalid. 
    assert (0 ≤ c - getColumnIndex R < Z.pos (getColumnCount R)); [eauto|lia].
  - intros Hin k (c & -> & Hc). apply validColumn_spec.
    apply Hin, inColumns_spec in Hc. lia.
Qed.

(** The key of a row of the range under the translated indices is made
    of the texts of the worksheet row in the considered columns. *)
Lemma rowKey_translated R c (columns : list Z) r :
  inRows R r = true →
  Forall (λ k, inColumns R k = true) columns →
  rowKey ((λ x, x - getColumnIndex R) <$> columns)
    (getValues R c !!! Z.to_nat (r - getRowIndex R))
  = (λ k, c r k) <$> columns.
Proof.
  intros Hr Hcols. unfold rowKey. rewrite <- list_fmap_compose.
  apply list_fmap_ext. intros _ k Hk%list_elem_of_lookup_2. simpl.
  apply getValues_cell; [done|]. by eapply Forall_forall in Hcols.
Qed.

(** C4. [removeDuplicates], given the caller's array of considered
    columns, returns whenever these are columns of the used range.  After
    it has returned, the used range starts where it did and holds the same
    first row, the header, followed by rows that were below the header
    before, in their former order; no two of them agree on all considered
    columns (exact equality of texts), and every row that was there agrees
    on them with a row that is left. *)
Theorem removeDuplicates_keeps_one_per_key σ (consideredColumns : nat)
    (elements : list Z) :
  arrays σ !! consideredColumns = Some elements →
  let R := usedRange (activeWorksheet σ) in
  let translated := (λ x, x - getColumnIndex R) <$> elements in
  (Forall (λ c, inColumns R c = true) elements →
   ∃ σ', removeDuplicates consideredColumns σ = (Normal tt, σ'))
  ∧ ∀ σ',
      removeDuplicates consideredColumns σ = (Normal tt, σ') →
      ∃ header data survivors,
        getValues R (cells (activeWorksheet σ)) = header :: data
        ∧ getValues (usedRange (activeWorksheet σ'))
            (cells (activeWorksheet σ'))
          = header :: survivors
        ∧ getRowIndex (usedRange (activeWorksheet σ')) = getRowIndex R
        ∧ getColumnIndex (usedRange (activeWorksheet σ'))
          = getColumnIndex R
        ∧ getColumnCount (usedRange (activeWorksheet σ'))
          = getColumnCount R
        ∧ survivors `sublist_of` data
        ∧ NoDup (rowKey translated <$> survivors)
        ∧ (∀ row, row ∈ data →
             rowKey translated row ∈ rowKey translated <$> survivors).
Proof.
  intros Ha R translated.
  rewrite (removeDuplicates_run _ _ _ Ha).
  cbn [Range_removeDuplicates Worksheet_getUsedRange host].
  fold R. fold translated. unfold removeDuplicatesOf. split.
  - intros Hcols%validColumn_translated. fold translated in Hcols.
    rewrite Hcols. eauto.
  - intros σ' Hrun.
    destruct (forallb (validColumn R) translated); [|done].
    injection Hrun as <-. cbn [activeWorksheet cells usedRange].
    rewrite decide_True by done. cbn [getRowIndex getColumnIndex getColumnCount].
    set (block := getValues R (cells (activeWorksheet σ))).
    destruct (header_data block) as (header & Hheader & Hblock).
    { unfold block. rewrite length_getValues. lia. }
    set (data := dataOf true block) in *.
    set (survivors := keepFirst translated [] data).
    pose proof (keepFirst_sublist translated [] data) as Hsub.
    fold survivors in Hsub.
    assert (length block = S (length data)) as Hlen
      by (rewrite Hblock at 1; done).
    assert (length block = Pos.to_nat (getRowCount R)) as Hrows
      by apply length_getValues.
    assert (Forall (λ row, length row = Pos.to_nat (getColumnCount R))
              (header :: data)) as Hwidth.
    { rewrite <- Hblock. apply width_getValues. }
    exists header, data, survivors.
    change (take 1 block) with (headerOf true block).
    change (drop 1 block) with data. fold survivors. rewrite Hheader.
    split_and!; try done.
    + pose proof (sublist_length _ _ Hsub) as Hle.
      set (kept := [header] ++ survivors).
      assert (length kept = S (length survivors)) as Hkept by done.
      rewrite getValues_fewer_rows; cbn [getRowCount];
        rewrite Nat2Pos.id by lia; [|lia].
      rewrite getValues_setValues.
      * by apply take_app_length'.
      * rewrite length_app, length_replicate. lia.
      * apply Forall_app. split.
        -- apply Forall_cons in Hwidth as [Hh Hd].
           apply Forall_cons. split; [done|].
           eapply Forall_forall. intros row Hrow.
           eapply Forall_forall in Hd; [exact Hd|].
           by eapply sublist_subseteq.
        -- apply Forall_replicate. unfold blankRow.
           by rewrite length_replicate.
    + apply keepFirst_NoDup.
    + intros row Hrow.
      by destruct (keepFirst_complete translated [] data row Hrow)
        as [?%elem_of_nil|?].
Qed.

(** *** Autofit *)

Lemma withColumnWidths_id ws : withColumnWidths ws (columnWidths ws) = ws.
Proof. by destruct ws. Qed.

(** One autofit on a worksheet that differs from [ws] in its column
    widths only: the range and the fitting widths are those of [ws]. *)
Lemma autofitColumn_run ws name widths arrs out (column : string) :
  autofitColumn column (mkRuntime name (withColumnWidths ws widths) arrs out)
  = match getRange (column +:+ ":" +:+ column) ws with
    | inr R =>
        (Normal tt,
         mkRuntime name
           (withColumnWidths ws
              (foldr (λ k m, <[k := fitWidth ws k]> m) widths (columnsOf R)))
           arrs
           (out ++ ["Autofit is applied to column " +:+ column +:+ "."]))
    | inl code =>
        (Throw (HostError code),
         mkRuntime name (withColumnWidths ws widths) arrs out)
    end.
Proof.
  unfold autofitColumn, bind, hostTry, hostDo, console_log.
  cbn [activeWorksheet Worksheet_getRange host].
  unfold getRange. cbn [usedRange withColumnWidths].
  by destruct (columnSpan (column +:+ ":" +:+ column)) as [[a b]|].
Qed.

Lemma getRange_column ws (column : string) :
  isColumnIdentifier column ↔
  ∃ R, getRange (column +:+ ":" +:+ column) ws = inr R.
Proof.
  unfold isColumnIdentifier, getRange.
  destruct (columnSpan (column +:+ ":" +:+ column)) as [[a b]|]; split.
  - eauto.
  - intros _. by eexists.
  - by intros [? ?].
  - by intros [? ?].
Qed.

Lemma forOf_autofit ws (columns : list string) :
  ∀ name widths arrs out,
    Forall isColumnIdentifier columns →
    ∃ widths' out',
      forOf columns autofitColumn
        (mkRuntime name (withColumnWidths ws widths) arrs out)
      = (Normal tt, mkRuntime name (withColumnWidths ws widths') arrs out')
      ∧ ∀ k, widths' !! k
             = if decide (k ∈ columnsNamed ws columns)
               then Some (fitWidth ws k) else widths !! k.
Proof.
  induction columns as [|c columns IH]; intros name widths arrs out Hvalid.
  - exists widths, out. split; [done|]. intros k.
    case_decide as Hin; [by apply elem_of_nil in Hin | done].
  - apply Forall_cons in Hvalid as [Hc Hvalid].
    apply (getRange_column ws) in Hc as [R HR].
    cbn [forOf]. unfold bind at 1. rewrite autofitColumn_run, HR.
    destruct (IH name
                (foldr (λ k m, <[k := fitWidth ws k]> m) widths (columnsOf R))
                arrs
                (out ++ ["Autofit is applied to column " +:+ c +:+ "."])
                Hvalid) as (widths' & out' & Hrun & Hlookup).
    exists widths', out'. split; [done|]. intros k.
    rewrite Hlookup, lookup_foldr_insert.
    unfold columnsNamed. rewrite bind_cons, HR.
    fold (columnsNamed ws columns).
    destruct (decide (k ∈ columnsNamed ws columns)) as [Hin|Hout].
    + by rewrite decide_True by (apply elem_of_app; by right).
    + destruct (decide (k ∈ columnsOf R)) as [Hin|Hout'].
      * by rewrite decide_True by (apply elem_of_app; by left).
      * rewrite decide_False; [done|]. by intros [?|?]%elem_of_app.
Qed.

Lemma forOf_autofit_inv ws (columns : list string) :
  ∀ name widths arrs out σ',
    forOf columns autofitColumn
      (mkRuntime name (withColumnWidths ws widths) arrs out)
    = (Normal tt, σ') →
    Forall isColumnIdentifier columns.
Proof.
  induction columns as [|c columns IH]; intros name widths arrs out σ' Hrun.
  - constructor.
  - cbn [forOf] in Hrun. unfold bind at 1 in Hrun.
    rewrite autofitColumn_run in Hrun.
    destruct (getRange (c +:+ ":" +:+ c) ws) as [code|R] eqn:HR; [done|].
    constructor; [apply (getRange_column ws); eauto | by eapply IH].
Qed.

(** The whole batch: it returns exactly on lists of column identifiers. *)
Lemma autofitColumns_run σ (columns : list string) :
  Forall isColumnIdentifier columns →
  ∃ widths' out',
    autofitColumns columns σ
    = (Normal tt,
       mkRuntime (workbookName σ)
         (withColumnWidths (activeWorksheet σ) widths') (arrays σ) out')
    ∧ ∀ k, widths' !! k
           = if decide (k ∈ columnsNamed (activeWorksheet σ) columns)
             then Some (fitWidth (activeWorksheet σ) k)
             else columnWidths (activeWorksheet σ) !! k.
Proof.
  intros Hvalid. destruct σ as [name ws arrs out].
  cbn [workbookName activeWorksheet arrays].
  destruct (forOf_autofit ws columns name (columnWidths ws) arrs out Hvalid)
    as (widths' & out' & Hrun & Hlookup).
  rewrite withColumnWidths_id in Hrun.
  eexists widths', _. split; [|done].
  unfold autofitColumns, bind. rewrite Hrun. reflexivity.
Qed.

Lemma autofitColumns_inv σ (columns : list string) σ' :
  autofitColumns columns σ = (Normal tt, σ') →
  Forall isColumnIdentifier columns.
Proof.
  destruct σ as [name ws arrs out]. unfold autofitColumns, bind.
  destruct (forOf columns autofitColumn _) as [[[]|e] σ1] eqn:Hrun; [|done].
  intros _. rewrite <- (withColumnWidths_id ws) in Hrun.
  by eapply forOf_autofit_inv.
Qed.

(** C9. For two lists of column identifiers that are permutations of one
    another, the autofit batch returns on the one when it returns on the
    other, and it leaves the same worksheet, hence the same column widths.
    The batch returns whenever every text of the list is a column
    identifier. *)
Theorem autofitColumns_order_independent σ (columns columns' : list string) :
  columns ≡ₚ columns' →
  (Forall isColumnIdentifier columns →
   ∃ σ1, autofitColumns columns σ = (Normal tt, σ1))
  ∧ ∀ σ1,
      autofitColumns columns σ = (Normal tt, σ1) →
      ∃ σ2,
        autofitColumns columns' σ = (Normal tt, σ2)
        ∧ activeWorksheet σ2 = activeWorksheet σ1
        ∧ columnWidths (activeWorksheet σ2)
          = columnWidths (activeWorksheet σ1).
Proof.
  intros Hperm. split.
  - intros Hvalid.
    destruct (autofitColumns_run σ columns Hvalid) as (? & ? & -> & _).
    eauto.
  - intros σ1 Hrun.
    pose proof (autofitColumns_inv _ _ _ Hrun) as Hvalid.
    assert (Forall isColumnIdentifier columns') as Hvalid'
      by by rewrite <- Hperm.
    destruct (autofitColumns_run σ columns Hvalid)
      as (widths1 & out1 & Hrun1 & Hlookup1).
    destruct (autofitColumns_run σ columns' Hvalid')
      as (widths2 & out2 & Hrun2 & Hlookup2).
    rewrite Hrun1 in Hrun. injection Hrun as <-.
    eexists. split; [exact Hrun2|]. cbn [activeWorksheet].
    assert (widths2 = widths1) as ->; [|done].
    apply map_eq. intros k. rewrite Hlookup1, Hlookup2.
    assert (columnsNamed (activeWorksheet σ) columns
            ≡ₚ columnsNamed (activeWorksheet σ) columns') as Hnamed
      by (unfold columnsNamed; by rewrite Hperm).
    repeat case_decide; try done.
    + exfalso. by rewrite Hnamed in *.
    + exfalso. by rewrite <- Hnamed in *.
Qed.

End SheetFacts.

(** ** The claims on the example worksheets *)

Section Worked.
Import Sheet Examples.

(** [scan.csv] is rejected and nothing has happened to it. *)
Lemma main_rejects_other_file_kinds_witness :
  main csvRun = (Throw (Error WRONG_FILE_KIND), csvRun).
Proof.
  apply (main_rejects_other_file_kinds csvRun).
  intros Hxlsx. apply (proj2 (endsWith_spec _ _)) in Hxlsx.
  vm_compute in Hxlsx. discriminate Hxlsx.
Defined.

(** Index [-1] on the scan. *)
Lemma sort_negative_index_witness :
  sort (-1) scanRun
  = (Throw (RangeError "columnIndex = -1 cannot be less than 0."), scanRun).
Proof. apply (sort_negative_index scanRun (-1)). lia. Defined.

(** The caller's array [3; 4] over a table that starts at column 2 holds
    [1; 2] after the call. *)
Lemma removeDuplicates_translates_in_place_witness :
  ∃ completion σ',
    removeDuplicates 0%nat shiftedRun = (completion, σ')
    ∧ arrays σ' !! 0%nat = Some [1; 2].
Proof.
  destruct (removeDuplicates_translates_in_place shiftedRun 0%nat [3; 4])
    as (completion & σ' & Hrun & Harray & _).
  - vm_compute. reflexivity.
  - exists completion, σ'. split; [exact Hrun | exact Harray].
Defined.

(** On the worksheet with six used columns the run stops at the duplicate
    removal: the columns hidden, the filter bound and the three lines
    logged by the steps before it are still there. *)
Lemma main_aborts_without_rollback_witness :
  main narrowRun
  = (Throw (HostError "InvalidArgument"), snd (main narrowRun))
  ∧ console (snd (main narrowRun))
    = [ "Columns A:C are hidden."; "Filters applied to columns D:O.";
        "Table sorted by column 3." ]
  ∧ hiddenColumns (activeWorksheet (snd (main narrowRun)))
    = list_to_set [0; 1; 2]
  ∧ ∃ completed failing remaining σ1,
      pipeline = completed ++ failing :: remaining
      ∧ runSteps completed narrowRun = (Normal tt, σ1)
      ∧ failing σ1
        = (Throw (HostError "InvalidArgument"), snd (main narrowRun)).
Proof.
  assert (main narrowRun
          = (Throw (HostError "InvalidArgument"), snd (main narrowRun)))
    as Hrun by (vm_compute; reflexivity).
  split; [exact Hrun|].
  split; [vm_compute; reflexivity|].
  split; [vm_compute; reflexivity|].
  destruct (main_aborts_without_rollback narrowRun _ _ Hrun)
    as [(Hname & _) | (completed & failing & remaining & σ1
                       & Hsplit & Hcompleted & Hfailing & _)].
  - vm_compute in Hname. discriminate Hname.
  - exists completed, failing, remaining, σ1. auto.
Defined.

(** The same run ends with an error of the host, not with one of the
    script's own. *)
Lemma main_only_throws_file_kind_error_witness :
  main narrowRun = (Throw (HostError "InvalidArgument"), snd (main narrowRun))
  ∧ (RISK_COLUMN <? 0) = false
  ∧ (UNIFIED_ROW_HEIGHT <=? 0) = false
  ∧ (HostError "InvalidArgument" = Error WRONG_FILE_KIND
     ∨ external (HostError "InvalidArgument")).
Proof.
  assert (main narrowRun
          = (Throw (HostError "InvalidArgument"), snd (main narrowRun)))
    as Hrun by (vm_compute; reflexivity).
  destruct (main_only_throws_file_kind_error narrowRun _ _ Hrun)
    as (Hsort & Hheight & _ & _ & Hkind).
  split; [exact Hrun|]. split; [exact Hsort|]. split; [exact Hheight|].
  exact Hkind.
Defined.

(** Heights 14, 0 and -1 on the scan. *)
Lemma setRowHeight_normalizes_witness :
  (∃ σ', setRowHeight 14 scanRun = (Normal tt, σ')
         ∧ rowHeights (activeWorksheet σ') !! 5 = Some 14)
  ∧ fst (setRowHeight 0 scanRun)
    = Throw (RangeError
               "rowHeight = 0 cannot be less than or equal to 0.")
  ∧ snd (setRowHeight (-1) scanRun) = scanRun.
Proof.
  split; [|split].
  - destruct (proj1 (setRowHeight_normalizes scanRun 14))
      as (σ' & Hrun & _ & Hheight & _); [lia|].
    exists σ'. split; [exact Hrun|]. apply Hheight. reflexivity.
  - rewrite (proj2 (setRowHeight_normalizes scanRun 0)) by lia. reflexivity.
  - rewrite (proj2 (setRowHeight_normalizes scanRun (-1))) by lia.
    reflexivity.
Defined.

(** The filter of the scan for column index 7: it is on column 0 of the
    range D to O all the same; the row of risk [Info] (row 1) is hidden and
    the row of risk [Critical] (row 3) is visible. *)
Lemma onlyShowFiltered_filters_first_column_witness :
  ∃ σ',
    onlyShowFiltered 7 RISK_LEVELS_TOBE_SHOWN filteredRun = (Normal tt, σ')
    ∧ autoFilterCriteria (activeWorksheet σ')
      = Some (0, RISK_LEVELS_TOBE_SHOWN)
    ∧ rowVisible (activeWorksheet σ') 1 = false
    ∧ rowVisible (activeWorksheet σ') 3 = true
    ∧ cells (activeWorksheet σ') 1 3 = "Info".
Proof.
  destruct (onlyShowFiltered_filters_first_column filteredRun 7
              RISK_LEVELS_TOBE_SHOWN filterRange)
    as (σ' & Hrun & _ & Hcriteria & _ & Hvisible & _ & Hcells & _).
  - vm_compute. reflexivity.
  - exists σ'. split; [exact Hrun|]. split; [exact Hcriteria|].
    split; [|split].
    + apply not_true_is_false. intros Hshown.
      apply (proj1 (Hvisible 1 eq_refl)) in Hshown.
      vm_compute in Hshown.
      repeat (apply elem_of_cons in Hshown as [Hshown|Hshown];
              [discriminate Hshown|]).
      by apply elem_of_nil in Hshown.
    + apply (proj2 (Hvisible 3 eq_refl)). vm_compute.
      apply list_elem_of_here.
    + rewrite Hcells. vm_compute. reflexivity.
Defined.

(** C2, as stated, fails for index 0 on the scan filtered on columns D to
    O: the index is non-negative and an autofilter range is there, but the
    key is -3, which is no column of the range; the host refuses the call,
    [sort] ends with the host's error and the worksheet is as it was, with
    the texts of column 0 below the header out of order. *)
Lemma sort_outside_filter_range :
  0 ≤ 0
  ∧ autoFilterRange (activeWorksheet filteredRun) = Some filterRange
  ∧ 0 - getColumnIndex filterRange = -3
  ∧ sort 0 filteredRun
    = (Throw (HostError "InvalidArgument"), filteredRun)
  ∧ columnValues (activeWorksheet filteredRun) 0 (dataRowsOf filterRange)
    = ["19506"; "10287"; "51192"; "10288"; "42873"]
  ∧ ¬ Sorted (textLe false)
        (columnValues (activeWorksheet filteredRun) 0
           (dataRowsOf filterRange))
  ∧ ¬ ∃ σ', sort 0 filteredRun = (Normal tt, σ').
Proof.
  assert (sort 0 filteredRun
          = (Throw (HostError "InvalidArgument"), filteredRun)) as Hrun
    by (vm_compute; reflexivity).
  split; [lia|].
  split; [vm_compute; reflexivity|].
  split; [reflexivity|].
  split; [exact Hrun|].
  split; [vm_compute; reflexivity|].
  split.
  - apply (bool_decide_eq_false_1 _). vm_compute. reflexivity.
  - intros [σ' Hok]. rewrite Hrun in Hok. discriminate Hok.
Qed.

(** Index 3 on the same worksheet: the risks come out in order. *)
Lemma sort_orders_filter_range_witness :
  ∃ σ',
    sort 3 filteredRun = (Normal tt, σ')
    ∧ columnValues (activeWorksheet σ') 3 (dataRowsOf filterRange)
      = ["Critical"; "high"; "Info"; "Low"; "Low"]
    ∧ Sorted (textLe false)
        (columnValues (activeWorksheet σ') 3 (dataRowsOf filterRange)).
Proof.
  destruct (sort_orders_filter_range filteredRun 3 filterRange)
    as (σ' & Hrun & _ & _ & _ & _ & Hsorted).
  - vm_compute. reflexivity.
  - lia.
  - vm_compute. reflexivity.
  - exists σ'. split; [exact Hrun|]. split; [|exact Hsorted].
    assert (σ' = snd (sort 3 filteredRun)) as -> by by rewrite Hrun.
    vm_compute. reflexivity.
Defined.

(** The table that starts at column 2, with the considered columns 3 and
    4: of the two rows that agree on them the first is left. *)
Lemma removeDuplicates_keeps_one_per_key_witness :
  ∃ σ',
    removeDuplicates 0%nat shiftedRun = (Normal tt, σ')
    ∧ getValues (usedRange (activeWorksheet σ')) (cells (activeWorksheet σ'))
      = [ ["Id"; "Risk"; "Host"]; ["1"; "Low"; "a"]; ["3"; "High"; "b"] ]
    ∧ ∃ header data survivors,
        getValues (usedRange shifted) (cells shifted) = header :: data
        ∧ getValues (usedRange (activeWorksheet σ'))
            (cells (activeWorksheet σ'))
          = header :: survivors
        ∧ survivors `sublist_of` data.
Proof.
  destruct (removeDuplicates_keeps_one_per_key shiftedRun 0%nat [3; 4])
    as [Hreturns Hafter].
  - vm_compute. reflexivity.
  - destruct Hreturns as [σ' Hrun].
    + repeat constructor.
    + exists σ'. split; [exact Hrun|].
      destruct (Hafter σ' Hrun)
        as (header & data & survivors & Hbefore & Hleft & _ & _ & _
            & Hsub & _).
      split.
      * assert (σ' = snd (removeDuplicates 0%nat shiftedRun)) as ->
          by by rewrite Hrun.
        vm_compute. reflexivity.
      * exists header, data, survivors. auto.
Defined.

(** The columns of [main], forwards and backwards. *)
Lemma autofitColumns_order_independent_witness :
  ∃ σ1 σ2,
    autofitColumns ["E"; "F"; "I"; "J"; "M"] scanRun = (Normal tt, σ1)
    ∧ autofitColumns ["M"; "J"; "I"; "F"; "E"] scanRun = (Normal tt, σ2)
    ∧ activeWorksheet σ2 = activeWorksheet σ1
    ∧ console σ2 ≠ console σ1.
Proof.
  destruct (autofitColumns_order_independent scanRun
              ["E"; "F"; "I"; "J"; "M"] ["M"; "J"; "I"; "F"; "E"])
    as [Hreturns Hsame].
  - apply (Permutation_rev ["E"; "F"; "I"; "J"; "M"]).
  - destruct Hreturns as [σ1 Hrun1].
    + repeat constructor; vm_compute; eexists; reflexivity.
    + destruct (Hsame σ1 Hrun1) as (σ2 & Hrun2 & Hws & _).
      exists σ1, σ2. split_and!; [done..|].
      assert (σ1 = snd (autofitColumns ["E"; "F"; "I"; "J"; "M"] scanRun))
        as -> by by rewrite Hrun1.
      assert (σ2 = snd (autofitColumns ["M"; "J"; "I"; "F"; "E"] scanRun))
        as -> by by rewrite Hrun2.
      vm_compute. discriminate.
Defined.

(** The whole run on the scan: columns A to C are hidden, one row of the
    pair that agrees on columns D to O is left, the row of risk [Info] is
    hidden and the row of risk [Critical] is visible, the five rows left
    have height 14, and columns E, F, I, J and M have a fitted width. *)
Example main_on_scan :
  let run := main scanRun in
  let ws := activeWorksheet (snd run) in
  fst run = Normal tt
  ∧ hiddenColumns ws = list_to_set [0; 1; 2]
  ∧ columnValues ws 3 (rowsOf (usedRange ws))
    = ["Risk"; "Critical"; "high"; "Info"; "Low"]
  ∧ rowVisible ws <$> rowsOf (usedRange ws)
    = [true; true; false; false; true]
  ∧ (λ r, rowHeights ws !! r) <$> rowsOf (usedRange ws)
    = [Some 14; Some 14; Some 14; Some 14; Some 14]
  ∧ dom (columnWidths ws) = list_to_set [4; 5; 8; 9; 12].
Proof. vm_compute. repeat split; reflexivity. Qed.

End Worked.

(** * Further properties *)

(** ** The file name without its extension *)

Lemma lastIndexOfFrom_absent (c : ascii) (s : string) (i found : Z) :
  (∀ p q, s ≠ p +:+ String c q) →
  lastIndexOfFrom c s i found = found.
Proof.
  revert i found. induction s as [|a s IH]; intros i found Habsent; [done|].
  simpl. destruct (Ascii.eqb_spec a c) as [->|_].
  - by destruct (Habsent EmptyString s).
  - apply IH. intros p q ->. by apply (Habsent (String a p) q).
Qed.

Lemma lastIndexOfFrom_last (c : ascii) (p t : string) (i found : Z) :
  (∀ p' q, t ≠ p' +:+ String c q) →
  lastIndexOfFrom c (p +:+ String c t) i found
  = i + Z.of_nat (String.length p).
Proof.
  intros Habsent. revert i found.
  induction p as [|a p IH]; intros i found.
  - change (EmptyString +:+ String c t) with (String c t). simpl.
    rewrite Ascii.eqb_refl, lastIndexOfFrom_absent by done. lia.
  - rewrite append_String. cbn [lastIndexOfFrom String.length].
    rewrite IH. lia.
Qed.

Lemma lastIndexOfFrom_found (c : ascii) (s : string) (i found : Z) :
  lastIndexOfFrom c s i found = found ∨ i ≤ lastIndexOfFrom c s i found.
Proof.
  revert i found. induction s as [|a s IH]; intros i found; [by left|].
  simpl. destruct (IH (i + 1) (if Ascii.eqb a c then i else found))
    as [-> | Hle].
  - destruct (Ascii.eqb a c); [right; lia | by left].
  - right. lia.
Qed.

Lemma lastIndexOfFrom_occurrence (c : ascii) (p q : string) (i found : Z) :
  i + Z.of_nat (String.length p)
  ≤ lastIndexOfFrom c (p +:+ String c q) i found.
Proof.
  revert i found. induction p as [|a p IH]; intros i found.
  - change (EmptyString +:+ String c q) with (String c q). simpl.
    rewrite Ascii.eqb_refl.
    destruct (lastIndexOfFrom_found c q (i + 1) i) as [-> | ?]; lia.
  - rewrite append_String. cbn [lastIndexOfFrom String.length].
    specialize (IH (i + 1) (if Ascii.eqb a c then i else found)). lia.
Qed.

(** [lastIndexOf] is [-1] exactly on the texts without the character. *)
Lemma lastIndexOf_absent (s : string) (c : ascii) :
  lastIndexOf s c = -1 → ∀ p q, s ≠ p +:+ String c q.
Proof.
  unfold lastIndexOf. intros Hlast p q ->.
  pose proof (lastIndexOfFrom_occurrence c p q 0 (-1)). lia.
Qed.

Lemma substring_prefix (p s : string) :
  String.substring 0 (String.length p) (p +:+ s) = p.
Proof.
  induction p as [|a p IH].
  - change (EmptyString +:+ s) with s. by destruct s.
  - rewrite append_String. simpl. by rewrite IH.
Qed.

(** X1. [FILENAME] cuts the name at its last dot: a name [stem.ext] whose
    [ext] has no dot gives [stem], whatever dots [stem] has. *)
Theorem FILENAME_strips_last_extension (stem ext : string) :
  (∀ p q, ext ≠ p +:+ "." +:+ q) →
  FILENAME (stem +:+ "." +:+ ext) = stem.
Proof.
  intros Hext. unfold FILENAME, lastIndexOf.
  change ("." +:+ ext) with (String "." ext).
  rewrite !lastIndexOfFrom_last by exact Hext.
  destruct (Z.ltb_spec (0 + Z.of_nat (String.length stem)) 0) as [?|_];
    [lia|].
  unfold substring0.
  replace (Z.to_nat (0 + Z.of_nat (String.length stem)))
    with (String.length stem) by lia.
  apply substring_prefix.
Qed.

(** A dated name: only the last extension goes. *)
Lemma FILENAME_strips_last_extension_witness :
  FILENAME "scan.2025.07.11.xlsx" = "scan.2025.07.11".
Proof.
  apply (FILENAME_strips_last_extension "scan.2025.07.11" "xlsx").
  apply lastIndexOf_absent. reflexivity.
Defined.

(** X2. a name without a dot is its own [FILENAME]. *)
Theorem FILENAME_without_dot (name : string) :
  (∀ p q, name ≠ p +:+ "." +:+ q) →
  FILENAME name = name.
Proof.
  intros Hname. unfold FILENAME, lastIndexOf.
  by rewrite lastIndexOfFrom_absent by exact Hname.
Qed.

Lemma FILENAME_without_dot_witness : FILENAME "scan" = "scan".
Proof.
  apply (FILENAME_without_dot "scan").
  apply lastIndexOf_absent. reflexivity.
Defined.

(** ** More on every host *)

Section MoreScriptFacts.
Context {W : Type} `{ExcelHost W}.

Implicit Types (σ : Runtime W) (e : Exception).

(** *** What a step logs *)

Lemma logs_bind {A B} (m : Script W A) (k : A → Script W B) l1 l2 :
  logs m l1 → (∀ a, logs (k a) l2) → logs (bind m k) (l1 ++ l2).
Proof.
  intros Hm Hk σ b σ'. unfold bind.
  destruct (m σ) as [[a|e] σ1] eqn:Hrun; [|done].
  intros Hrest. rewrite (Hk _ _ _ _ Hrest), (Hm _ _ _ Hrun).
  by rewrite app_assoc.
Qed.

Lemma logs_ret {A} (a : A) : logs (W := W) (ret a) [].
Proof. intros σ b σ' [= <- <-]. by rewrite app_nil_r. Qed.

Lemma logs_throw {A} e lines : logs (W := W) (A := A) (throw e) lines.
Proof. by intros σ b σ'. Qed.

Lemma logs_console_log line : logs (W := W) (console_log line) [line].
Proof. by intros σ b σ' [= <- <-]. Qed.

Lemma logs_hostGet {A} (f : W → A) : logs (hostGet f) [].
Proof. intros σ b σ' [= <- <-]. by rewrite app_nil_r. Qed.

Lemma logs_newArray xs : logs (W := W) (newArray xs) [].
Proof. intros σ b σ' [= <- <-]. simpl. by rewrite app_nil_r. Qed.

Lemma logs_hostTry {A} (f : W → string + A) : logs (hostTry f) [].
Proof.
  intros σ b σ'. unfold hostTry.
  destruct (f (activeWorksheet σ)); intros [= <- <-].
  by rewrite app_nil_r.
Qed.

Lemma logs_hostDo (f : W → string + W) : logs (hostDo f) [].
Proof.
  intros σ b σ'. unfold hostDo.
  destruct (f (activeWorksheet σ)); intros [= <- <-]. simpl.
  by rewrite app_nil_r.
Qed.

Lemma logs_readArray a : logs (W := W) (readArray a) [].
Proof.
  intros σ b σ'. unfold readArray.
  destruct (arrays σ !! a); intros [= <- <-]. by rewrite app_nil_r.
Qed.

Lemma logs_arraySubAssign a i d : logs (W := W) (arraySubAssign a i d) [].
Proof.
  intros σ b σ'. unfold arraySubAssign.
  destruct (arrays σ !! a) as [xs|]; [destruct (xs !! i)|];
    intros [= <- <-]; simpl; by rewrite app_nil_r.
Qed.

Lemma logs_forRange n first body :
  (∀ i, logs (W := W) (body i) []) → logs (forRange n first body) [].
Proof.
  intros Hbody. revert first. induction n as [|n IH]; intros first; simpl.
  - apply logs_ret.
  - apply (logs_bind _ _ [] []); auto.
Qed.

Lemma logs_forOf {A} (xs : list A) body (line : A → string) :
  (∀ x, logs (W := W) (body x) [line x]) →
  logs (forOf xs body) (line <$> xs).
Proof.
  intros Hbody. induction xs as [|x xs IH]; simpl.
  - apply logs_ret.
  - apply (logs_bind _ _ [line x]); auto.
Qed.

Lemma hideColumns_logs c :
  logs (hideColumns c) ["Columns " +:+ c +:+ " are hidden."].
Proof.
  unfold hideColumns.
  apply (logs_bind _ _ []); [apply logs_hostTry | intros R].
  apply (logs_bind _ _ []); [apply logs_hostDo | intros _].
  apply logs_console_log.
Qed.

Lemma filterColumns_logs c :
  logs (filterColumns c) ["Filters applied to columns " +:+ c +:+ "."].
Proof.
  unfold filterColumns.
  apply (logs_bind _ _ []); [apply logs_hostTry | intros R].
  apply (logs_bind _ _ []); [apply logs_hostDo | intros _].
  apply logs_console_log.
Qed.

Lemma sort_logs i :
  logs (sort i) ["Table sorted by column " +:+ numberToString i +:+ "."].
Proof.
  unfold sort. destruct (i <? 0); [apply logs_throw|].
  apply (logs_bind _ _ []); [apply logs_hostGet | intros [R|]].
  - apply (logs_bind _ _ []); [apply logs_hostDo | intros _].
    apply logs_console_log.
  - apply logs_throw.
Qed.

Lemma removeDuplicates_logs a : logs (removeDuplicates a) ["Duplicates removed."].
Proof.
  unfold removeDuplicates.
  apply (logs_bind _ _ []); [apply logs_hostGet | intros R].
  apply (logs_bind _ _ []); [apply logs_readArray | intros xs].
  apply (logs_bind _ _ []);
    [apply logs_forRange; intros i; apply logs_arraySubAssign | intros _].
  apply (logs_bind _ _ []); [apply logs_readArray | intros ys].
  apply (logs_bind _ _ []); [apply logs_hostDo | intros _].
  apply logs_console_log.
Qed.

Lemma setRowHeight_logs h :
  logs (setRowHeight h)
    ["Height of occupied cells is set to " +:+ numberToString h +:+ "."].
Proof.
  unfold setRowHeight. destruct (h <=? 0); [apply logs_throw|].
  apply (logs_bind _ _ []); [apply logs_hostGet | intros R].
  apply (logs_bind _ _ []); [apply logs_hostDo | intros _].
  apply logs_console_log.
Qed.

Lemma onlyShowFiltered_logs i vs :
  logs (onlyShowFiltered i vs)
    ["Table only show filtered at column " +:+ numberToString i
     +:+ " with values " +:+ arrayToString vs +:+ "."].
Proof.
  unfold onlyShowFiltered.
  apply (logs_bind _ _ []); [apply logs_hostGet | intros R].
  apply (logs_bind _ _ []); [apply logs_hostDo | intros _].
  apply logs_console_log.
Qed.

Lemma autofitColumn_logs c :
  logs (autofitColumn c) ["Autofit is applied to column " +:+ c +:+ "."].
Proof.
  unfold autofitColumn.
  apply (logs_bind _ _ []); [apply logs_hostTry | intros R].
  apply (logs_bind _ _ []); [apply logs_hostDo | intros _].
  apply logs_console_log.
Qed.

Lemma autofitColumns_logs cs :
  logs (autofitColumns cs)
    (((λ c, "Autofit is applied to column " +:+ c +:+ ".") <$> cs)
     ++ ["Autofit is applied to columns " +:+ arrayToString cs +:+ "."]).
Proof.
  unfold autofitColumns.
  apply logs_bind; [|intros _; apply logs_console_log].
  apply logs_forOf. intros c. apply autofitColumn_logs.
Qed.

(** X3. a run of [main] that returns has written to the console the line of
    each step, in the order of the steps, and nothing else: twelve lines,
    the same on every host and for every worksheet. *)
Theorem main_logs_every_step σ σ' :
  main σ = (Normal tt, σ') →
  console σ'
  = console σ
    ++ [ "Columns A:C are hidden.";
         "Filters applied to columns D:O.";
         "Table sorted by column 3.";
         "Duplicates removed.";
         "Height of occupied cells is set to 14.";
         "Table only show filtered at column 3 with values Critical,High,Low,Medium.";
         "Autofit is applied to column E.";
         "Autofit is applied to column F.";
         "Autofit is applied to column I.";
         "Autofit is applied to column J.";
         "Autofit is applied to column M.";
         "Autofit is applied to columns E,F,I,J,M." ].
Proof.
  intros Hmain.
  destruct (endsWith (workbookName σ) ".xlsx") eqn:Hname;
    [|by rewrite (main_wrong_kind _ Hname) in Hmain].
  rewrite (main_pipeline _ Hname) in Hmain. revert Hmain.
  unfold pipeline, runSteps.
  assert (∀ (m : Script W unit) lines,
            logs m lines → m σ = (Normal tt, σ') →
            console σ' = console σ ++ lines) as Happly by (intros m l Hm; apply Hm).
  apply Happly.
  apply (logs_bind _ _ [_]); [apply hideColumns_logs | intros _].
  apply (logs_bind _ _ [_]); [apply filterColumns_logs | intros _].
  apply (logs_bind _ _ [_]); [apply sort_logs | intros _].
  apply (logs_bind _ _ [_]);
    [apply (logs_bind _ _ []); [apply logs_newArray | intros a];
     apply removeDuplicates_logs | intros _].
  apply (logs_bind _ _ [_]); [apply setRowHeight_logs | intros _].
  apply (logs_bind _ _ [_]); [apply onlyShowFiltered_logs | intros _].
  apply (logs_bind _ _ [_; _; _; _; _; _] []);
    [apply (autofitColumns_logs COLUMNS_TOBE_AUTOFITTED) | intros _].
  apply logs_ret.
Qed.

End MoreScriptFacts.

Section Failures.
Context {W : Type} `{ExcelHost W}.

Implicit Types (σ : Runtime W) (e : Exception).

Lemma hostTry_then_hostDo_failsClean {A} (get : W → string + A)
    (change : A → W → string + W) (line : string) :
  failsClean (let* a := hostTry get in
              hostDo (change a) ;; console_log line).
Proof.
  intros σ e σ'. unfold bind, hostTry, hostDo, console_log.
  destruct (get (activeWorksheet σ)) as [code|a]; [by intros [= _ <-]|].
  destruct (change a (activeWorksheet σ)) as [code|w]; [by intros [= _ <-]|].
  done.
Qed.

Lemma hostDo_failsClean (change : W → string + W) (line : string) :
  failsClean (hostDo change ;; console_log line).
Proof.
  intros σ e σ'. unfold bind, hostDo, console_log.
  destruct (change (activeWorksheet σ)) as [code|w]; [by intros [= _ <-]|].
  done.
Qed.

(** X4. each step that makes one change to the worksheet logs after the
    host has made it and does nothing before: when [hideColumns],
    [filterColumns], [sort], [setRowHeight], [onlyShowFiltered] or
    [autofitColumn] throws, whatever the exception, the state is the one
    the step was given. *)
Theorem single_steps_fail_clean (address column : string) (index height : Z)
    (shown : list string) :
  failsClean (hideColumns address)
  ∧ failsClean (filterColumns address)
  ∧ failsClean (sort index)
  ∧ failsClean (setRowHeight height)
  ∧ failsClean (onlyShowFiltered index shown)
  ∧ failsClean (autofitColumn column).
Proof.
  split_and!.
  - apply hostTry_then_hostDo_failsClean.
  - apply (hostTry_then_hostDo_failsClean _ (λ R, AutoFilter_apply (Some R) None)).
  - unfold sort. destruct (index <? 0); [by intros σ e σ' [= _ <-]|].
    intros σ e σ'. unfold bind at 1. unfold hostGet at 1.
    destruct (Worksheet_getAutoFilter_getRange (activeWorksheet σ)) as [R|];
      [apply hostDo_failsClean | by intros [= _ <-]].
  - unfold setRowHeight. destruct (height <=? 0); [by intros σ e σ' [= _ <-]|].
    intros σ e σ'. unfold bind at 1. unfold hostGet at 1.
    apply hostDo_failsClean.
  - intros σ e σ'. unfold onlyShowFiltered. unfold bind at 1.
    unfold hostGet at 1. apply hostDo_failsClean.
  - apply (hostTry_then_hostDo_failsClean _ RangeFormat_autofitColumns).
Qed.

(** *** The autofit batch *)

Lemma forOf_Throw_inv {A} (body : A → Script W unit) (xs : list A) σ e σ' :
  forOf xs body σ = (Throw e, σ') →
  ∃ before x after σ1,
    xs = before ++ x :: after
    ∧ forOf before body σ = (Normal tt, σ1)
    ∧ body x σ1 = (Throw e, σ').
Proof.
  revert σ. induction xs as [|x xs IH]; intros σ Hrun; simpl in *; [done|].
  apply bind_Throw_inv in Hrun as [Hx | ([] & σ0 & Hx & Hrest)].
  - by exists [], x, xs, σ.
  - destruct (IH _ Hrest) as (before & y & after & σ1 & -> & Hbefore & Hy).
    exists (x :: before), y, after, σ1. split_and!; [done| |done].
    simpl. by rewrite (bind_Normal _ _ _ _ _ Hx).
Qed.

(** X5. [autofitColumns] stops at the first column it cannot autofit.  When
    the batch throws, one identifier of the list made [autofitColumn]
    throw; the state left is exactly the one reached by autofitting the
    identifiers before it, one after the other (they stay autofitted and
    logged), and neither the identifiers after it nor the closing line of
    the batch have been dealt with. *)
Theorem autofitColumns_stops_at_first_failure
    (columnsTobeAutofitted : list string) σ e σ' :
  autofitColumns columnsTobeAutofitted σ = (Throw e, σ') →
  ∃ before column after,
    columnsTobeAutofitted = before ++ column :: after
    ∧ forOf before autofitColumn σ = (Normal tt, σ')
    ∧ autofitColumn column σ' = (Throw e, σ')
    ∧ console σ'
      = console σ
        ++ ((λ c, "Autofit is applied to column " +:+ c +:+ ".") <$> before).
Proof.
  intros Hrun. unfold autofitColumns in Hrun.
  apply bind_Throw_inv in Hrun as [Hloop | ([] & σ1 & _ & Hlog)];
    [|done].
  destruct (forOf_Throw_inv _ _ _ _ _ Hloop)
    as (before & column & after & σ1 & -> & Hbefore & Hcolumn).
  assert (σ' = σ1) as ->.
  { revert Hcolumn. apply (hostTry_then_hostDo_failsClean _
                             RangeFormat_autofitColumns). }
  exists before, column, after. split_and!; [done..|].
  revert Hbefore. apply (logs_forOf before autofitColumn).
  intros c. apply autofitColumn_logs.
Qed.

(** *** The caller's array, passed twice *)

(** X6. the translation adds up.  When [removeDuplicates] has returned for
    an array and is called again with the same array, the array ends up
    with each of its first elements minus the column offset of the used range
    at the first call and minus that at the second: the second call asks
    the host to compare other columns than the first, unless the offset is
    0. *)
Theorem removeDuplicates_twice_translates_twice σ (consideredColumns : nat)
    (elements : list Z) σ1 :
  arrays σ !! consideredColumns = Some elements →
  removeDuplicates consideredColumns σ = (Normal tt, σ1) →
  ∃ completion σ2,
    removeDuplicates consideredColumns σ1 = (completion, σ2)
    ∧ arrays σ2 !! consideredColumns
      = Some ((λ x, x - getColumnIndex
                          (Worksheet_getUsedRange (activeWorksheet σ))
                    - getColumnIndex
                        (Worksheet_getUsedRange (activeWorksheet σ1)))
              <$> elements).
Proof.
  intros Ha Hfirst.
  assert (arrays σ1 !! consideredColumns
          = Some ((λ x, x - getColumnIndex
                              (Worksheet_getUsedRange (activeWorksheet σ)))
                  <$> elements)) as Ha1.
  { rewrite (removeDuplicates_run _ _ _ Ha) in Hfirst.
    destruct (Range_removeDuplicates _ _ _ _); [done|].
    injection Hfirst as <-. apply lookup_insert_eq. }
  rewrite (removeDuplicates_run _ _ _ Ha1).
  destruct (Range_removeDuplicates _ _ _ _); eexists _, _;
    (split; [reflexivity|]); simpl;
    rewrite lookup_insert_eq, <- list_fmap_compose; done.
Qed.

End Failures.

(** ** More on the reference host *)

Section MoreSheetFacts.
Import Sheet.

Implicit Types (σ : Runtime Worksheet) (ws : Worksheet) (R : Range).

Lemma elem_of_columnsOf R k : k ∈ columnsOf R ↔ inColumns R k = true.
Proof. unfold columnsOf. by rewrite elem_of_seqZ, inColumns_spec. Qed.

(** [hideColumns] on the reference host, for an address it can read. *)
Lemma hideColumns_run σ (address : string) R :
  getRange address (activeWorksheet σ) = inr R →
  hideColumns address σ
  = (Normal tt,
     mkRuntime (workbookName σ)
       {| cells := cells (activeWorksheet σ);
          usedRange := usedRange (activeWorksheet σ);
          hiddenColumns :=
            hiddenColumns (activeWorksheet σ) ∪ list_to_set (columnsOf R);
          autoFilterRange := autoFilterRange (activeWorksheet σ);
          autoFilterCriteria := autoFilterCriteria (activeWorksheet σ);
          rowHeights := rowHeights (activeWorksheet σ);
          columnWidths := columnWidths (activeWorksheet σ) |}
       (arrays σ)
       (console σ ++ ["Columns " +:+ address +:+ " are hidden."])).
Proof.
  intros HR. unfold hideColumns, bind, hostTry, hostDo, console_log.
  cbn [Worksheet_getRange Range_setColumnHidden host]. by rewrite HR.
Qed.

(** X7. on the reference host [hideColumns], for an address the host can
    read, only ever hides: afterwards a column is hidden exactly when it was
    hidden before or lies in the range of the address; cells, used range,
    autofilter, row heights and column widths are as they were; and hiding
    the same columns again changes nothing in the worksheet. *)
Theorem hideColumns_only_hides σ (columnsTobeHidden : string) R :
  getRange columnsTobeHidden (activeWorksheet σ) = inr R →
  ∃ σ',
    hideColumns columnsTobeHidden σ = (Normal tt, σ')
    ∧ (∀ k, k ∈ hiddenColumns (activeWorksheet σ')
            ↔ k ∈ hiddenColumns (activeWorksheet σ) ∨ inColumns R k = true)
    ∧ cells (activeWorksheet σ') = cells (activeWorksheet σ)
    ∧ usedRange (activeWorksheet σ') = usedRange (activeWorksheet σ)
    ∧ autoFilterRange (activeWorksheet σ')
      = autoFilterRange (activeWorksheet σ)
    ∧ autoFilterCriteria (activeWorksheet σ')
      = autoFilterCriteria (activeWorksheet σ)
    ∧ rowHeights (activeWorksheet σ') = rowHeights (activeWorksheet σ)
    ∧ columnWidths (activeWorksheet σ') = columnWidths (activeWorksheet σ)
    ∧ ∃ σ'',
        hideColumns columnsTobeHidden σ' = (Normal tt, σ'')
        ∧ activeWorksheet σ'' = activeWorksheet σ'.
Proof.
  intros HR. eexists. split; [by apply hideColumns_run|].
  cbn [activeWorksheet hiddenColumns cells usedRange autoFilterRange
       autoFilterCriteria rowHeights columnWidths].
  split_and!; try done.
  - intros k. rewrite elem_of_union, elem_of_list_to_set.
    by rewrite elem_of_columnsOf.
  - eexists. split; [by apply hideColumns_run|].
    cbn [activeWorksheet hiddenColumns cells usedRange autoFilterRange
         autoFilterCriteria rowHeights columnWidths].
    f_equal. apply set_eq. intros k. rewrite !elem_of_union. tauto.
Qed.

(** [filterColumns] on the reference host, for an address it can read. *)
Lemma filterColumns_run σ (address : string) R :
  getRange address (activeWorksheet σ) = inr R →
  filterColumns address σ
  = (Normal tt,
     mkRuntime (workbookName σ)
       {| cells := cells (activeWorksheet σ);
          usedRange := usedRange (activeWorksheet σ);
          hiddenColumns := hiddenColumns (activeWorksheet σ);
          autoFilterRange := Some R;
          autoFilterCriteria := None;
          rowHeights := rowHeights (activeWorksheet σ);
          columnWidths := columnWidths (activeWorksheet σ) |}
       (arrays σ)
       (console σ ++ ["Filters applied to columns " +:+ address +:+ "."])).
Proof.
  intros HR. unfold filterColumns, bind, hostTry, hostDo, console_log.
  cbn [Worksheet_getRange AutoFilter_apply host]. by rewrite HR.
Qed.

(** X8. on the reference host [filterColumns], for an address the host can
    read, binds the autofilter to the range of the address and drops the
    criteria that were active: afterwards every row is visible, whatever
    values filter was there before; no cell is changed. *)
Theorem filterColumns_shows_every_row σ (columnsTobeFiltered : string) R :
  getRange columnsTobeFiltered (activeWorksheet σ) = inr R →
  ∃ σ',
    filterColumns columnsTobeFiltered σ = (Normal tt, σ')
    ∧ autoFilterRange (activeWorksheet σ') = Some R
    ∧ autoFilterCriteria (activeWorksheet σ') = None
    ∧ (∀ r, rowVisible (activeWorksheet σ') r = true)
    ∧ cells (activeWorksheet σ') = cells (activeWorksheet σ)
    ∧ usedRange (activeWorksheet σ') = usedRange (activeWorksheet σ)
    ∧ hiddenColumns (activeWorksheet σ') = hiddenColumns (activeWorksheet σ).
Proof.
  intros HR. eexists. split; [by apply filterColumns_run|].
  by cbn [activeWorksheet].
Qed.

(** [sort] on the reference host with an index outside the filter range. *)
Lemma sort_rejected σ (columnIndex : Z) R :
  autoFilterRange (activeWorksheet σ) = Some R →
  0 ≤ columnIndex →
  inColumns R columnIndex = false →
  sort columnIndex σ = (Throw (HostError "InvalidArgument"), σ).
Proof.
  intros HR Hidx Hcol. unfold sort.
  destruct (Z.ltb_spec columnIndex 0) as [?|_]; [lia|].
  unfold bind, hostGet, hostDo. cbn [Worksheet_getAutoFilter_getRange host].
  rewrite HR. cbn [RangeSort_apply host]. unfold sortApply.
  assert (validColumn R (columnIndex - getColumnIndex R) = false) as Hkey.
  { apply not_true_is_false. intros Hvalid%validColumn_spec.
    assert (inColumns R columnIndex = true) by (apply inColumns_spec; lia).
    congruence. }
  cbn [forallb key]. by rewrite Hkey.
Qed.

(** X9. the filter decides which columns can be sorted by.  On the
    reference host, once [filterColumns] has returned for an address, [sort]
    with a non-negative index returns exactly when the index is a column
    of the range of that address; with any other index it ends with the
    host's [InvalidArgument] and changes nothing. *)
Theorem sort_after_filterColumns σ (columnsTobeFiltered : string) R σ1
    (columnIndex : Z) :
  getRange columnsTobeFiltered (activeWorksheet σ) = inr R →
  filterColumns columnsTobeFiltered σ = (Normal tt, σ1) →
  0 ≤ columnIndex →
  (inColumns R columnIndex = true → ∃ σ2, sort columnIndex σ1 = (Normal tt, σ2))
  ∧ (inColumns R columnIndex = false →
     sort columnIndex σ1 = (Throw (HostError "InvalidArgument"), σ1)).
Proof.
  intros HR Hfilter Hidx.
  rewrite (filterColumns_run _ _ _ HR) in Hfilter.
  injection Hfilter as <-. split; intros Hcol.
  - eexists. by apply (sort_run _ columnIndex R).
  - by apply (sort_rejected _ columnIndex R).
Qed.

(** *** One column autofitted *)

Lemma letterValue_not_colon (a : ascii) v :
  letterValue a = Some v → Ascii.eqb a ":" = false.
Proof. destruct (Ascii.eqb_spec a ":") as [->|]; [discriminate | done]. Qed.

Lemma splitAtColon_letters (c r : string) acc v :
  lettersValue c acc = Some v →
  splitAtColon (c +:+ String ":" r) = Some (c, r).
Proof.
  revert acc. induction c as [|a c IH]; intros acc Hletters; [done|].
  rewrite append_String. simpl in *.
  destruct (letterValue a) as [w|] eqn:Ha; [|done].
  rewrite (letterValue_not_colon _ _ Ha), (IH _ Hletters). done.
Qed.

(** The address [c:c] of a column written in letters spans that column. *)
Lemma columnSpan_single (c : string) k :
  columnOfLetters c = Some k → columnSpan (c +:+ ":" +:+ c) = Some (k, k).
Proof.
  intros Hc. unfold columnSpan.
  assert (∃ v, lettersValue c 0 = Some v) as [v Hv].
  { unfold columnOfLetters in Hc. destruct c; [done|].
    destruct (lettersValue _ 0); [eauto | done]. }
  change (":" +:+ c) with (String ":" c).
  rewrite (splitAtColon_letters _ _ _ _ Hv), Hc.
  by rewrite Z.min_id, Z.max_id.
Qed.

(** X10. on the reference host [autofitColumn], for a column written in
    letters, changes one thing: the width of that column, which becomes the
    width that fits it.  The widths of the other columns, the cells, the
    used range, the hidden columns, the autofilter and the row heights are
    as they were. *)
Theorem autofitColumn_fits_one_column σ (column : string) k :
  columnOfLetters column = Some k →
  ∃ σ',
    autofitColumn column σ = (Normal tt, σ')
    ∧ columnWidths (activeWorksheet σ')
      = <[k := fitWidth (activeWorksheet σ) k]>
          (columnWidths (activeWorksheet σ))
    ∧ cells (activeWorksheet σ') = cells (activeWorksheet σ)
    ∧ usedRange (activeWorksheet σ') = usedRange (activeWorksheet σ)
    ∧ hiddenColumns (activeWorksheet σ') = hiddenColumns (activeWorksheet σ)
    ∧ autoFilterRange (activeWorksheet σ')
      = autoFilterRange (activeWorksheet σ)
    ∧ autoFilterCriteria (activeWorksheet σ')
      = autoFilterCriteria (activeWorksheet σ)
    ∧ rowHeights (activeWorksheet σ') = rowHeights (activeWorksheet σ).
Proof.
  intros Hc. destruct σ as [name ws arrs out].
  cbn [activeWorksheet].
  pose proof (autofitColumn_run ws name (columnWidths ws) arrs out column)
    as Hrun.
  rewrite withColumnWidths_id in Hrun. rewrite Hrun. unfold getRange.
  rewrite (columnSpan_single _ _ Hc).
  eexists. split; [reflexivity|]. cbn [activeWorksheet withColumnWidths
    columnWidths cells usedRange hiddenColumns autoFilterRange
    autoFilterCriteria rowHeights].
  split_and!; try done.
  unfold columnsOf. cbn [getColumnIndex getColumnCount].
  replace (k - k + 1) with 1 by lia. done.
Qed.

(** *** The whole run *)

Lemma getRange_ABC ws :
  getRange COLUMNS_TOBE_HIDDEN ws
  = inr {| getRowIndex := 0; getColumnIndex := 0;
           getRowCount := Z.to_pos (getRowIndex (usedRange ws)
                                    + Z.pos (getRowCount (usedRange ws)));
           getColumnCount := 3 |}.
Proof. reflexivity. Qed.

Lemma getRange_DO ws :
  getRange COLUMNS_TOBE_FILTERED ws
  = inr {| getRowIndex := 0; getColumnIndex := 3;
           getRowCount := Z.to_pos (getRowIndex (usedRange ws)
                                    + Z.pos (getRowCount (usedRange ws)));
           getColumnCount := 12 |}.
Proof. reflexivity. Qed.

Lemma columnsNamed_autofitted ws :
  columnsNamed ws COLUMNS_TOBE_AUTOFITTED = [4; 5; 8; 9; 12].
Proof. reflexivity. Qed.

Lemma setRowHeight_run σ (rowHeight : Z) :
  0 < rowHeight →
  setRowHeight rowHeight σ
  = (Normal tt,
     mkRuntime (workbookName σ)
       {| cells := cells (activeWorksheet σ);
          usedRange := usedRange (activeWorksheet σ);
          hiddenColumns := hiddenColumns (activeWorksheet σ);
          autoFilterRange := autoFilterRange (activeWorksheet σ);
          autoFilterCriteria := autoFilterCriteria (activeWorksheet σ);
          rowHeights :=
            foldr (λ r m, <[r := rowHeight]> m)
              (rowHeights (activeWorksheet σ))
              (rowsOf (usedRange (activeWorksheet σ)));
          columnWidths := columnWidths (activeWorksheet σ) |}
       (arrays σ)
       (console σ ++ ["Height of occupied cells is set to "
                      +:+ numberToString rowHeight +:+ "."])).
Proof.
  intros Hh. unfold setRowHeight.
  by destruct (Z.leb_spec rowHeight 0) as [?|_]; [lia|].
Qed.

Lemma onlyShowFiltered_run σ (columnIndex : Z) (shown : list string) R :
  autoFilterRange (activeWorksheet σ) = Some R →
  onlyShowFiltered columnIndex shown σ
  = (Normal tt,
     mkRuntime (workbookName σ)
       {| cells := cells (activeWorksheet σ);
          usedRange := usedRange (activeWorksheet σ);
          hiddenColumns := hiddenColumns (activeWorksheet σ);
          autoFilterRange := Some R;
          autoFilterCriteria := Some (0, shown);
          rowHeights := rowHeights (activeWorksheet σ);
          columnWidths := columnWidths (activeWorksheet σ) |}
       (arrays σ)
       (console σ
        ++ ["Table only show filtered at column "
            +:+ numberToString columnIndex +:+ " with values "
            +:+ arrayToString shown +:+ "."])).
Proof.
  intros HR. unfold onlyShowFiltered, bind, hostGet, hostDo. simpl.
  by rewrite HR.
Qed.

Lemma removeDuplicatesOf_frame R (columns : list Z) (header : bool) ws ws' :
  removeDuplicatesOf R columns header ws = inr ws' →
  hiddenColumns ws' = hiddenColumns ws
  ∧ autoFilterRange ws' = autoFilterRange ws
  ∧ autoFilterCriteria ws' = autoFilterCriteria ws
  ∧ rowHeights ws' = rowHeights ws
  ∧ columnWidths ws' = columnWidths ws.
Proof.
  unfold removeDuplicatesOf.
  destruct (forallb (validColumn R) columns); [|done].
  by intros [= <-].
Qed.

(** The run of [main] on the reference host, step by step: the worksheet
    [ws3] is the one left by the first three steps, and the duplicate
    removal on it decides how the run ends. *)
Lemma main_on_sheet σ :
  endsWith (workbookName σ) ".xlsx" = true →
  let ws := activeWorksheet σ in
  let U := usedRange ws in
  let RF := {| getRowIndex := 0; getColumnIndex := 3;
               getRowCount :=
                 Z.to_pos (getRowIndex U + Z.pos (getRowCount U));
               getColumnCount := 12 |} in
  let translated :=
    (λ x, x - getColumnIndex U) <$> DUPLICATES_CONSIDERED_COLUMNS in
  ∃ ws2 ws3,
    cells ws2 = cells ws ∧ usedRange ws2 = U
    ∧ sortApply RF [ {| key := 0; ascending := true |} ] false true ws2
      = inr ws3
    ∧ match removeDuplicatesOf U translated true ws3 with
      | inl code =>
          ∃ σ', main σ = (Throw (HostError code), σ')
                ∧ activeWorksheet σ' = ws3
      | inr ws4 =>
          ∃ σ',
            main σ = (Normal tt, σ')
            ∧ cells (activeWorksheet σ') = cells ws4
            ∧ usedRange (activeWorksheet σ') = usedRange ws4
            ∧ hiddenColumns (activeWorksheet σ')
              = hiddenColumns ws ∪ list_to_set [0; 1; 2]
            ∧ autoFilterRange (activeWorksheet σ') = Some RF
            ∧ autoFilterCriteria (activeWorksheet σ')
              = Some (0, RISK_LEVELS_TOBE_SHOWN)
            ∧ rowHeights (activeWorksheet σ')
              = foldr (λ r m, <[r := 14]> m) (rowHeights ws)
                  (rowsOf (usedRange ws4))
            ∧ ∀ k, columnWidths (activeWorksheet σ') !! k
                   = if decide (k ∈ [4; 5; 8; 9; 12])
                     then Some (fitWidth (activeWorksheet σ') k)
                     else columnWidths ws !! k
      end.
Proof.
  intros Hname ws U RF translated. rewrite (main_pipeline _ Hname).
  unfold pipeline, runSteps.
  rewrite (bind_Normal _ _ _ _ _
             (hideColumns_run σ _ _ (getRange_ABC (activeWorksheet σ)))).
  match goal with |- context [bind _ _ ?s] => set (σ1 := s) end.
  rewrite (bind_Normal _ _ _ _ _
             (filterColumns_run σ1 _ _ (getRange_DO (activeWorksheet σ1)))).
  match goal with |- context [bind _ _ ?s] => set (σ2 := s) end.
  exists (activeWorksheet σ2).
  rewrite (bind_Normal _ _ _ _ _
             (sort_run σ2 RISK_COLUMN _ eq_refl ltac:(done) eq_refl)).
  match goal with |- context [bind _ _ ?s] => set (σ3 := s) end.
  exists (activeWorksheet σ3).
  split; [done|]. split; [done|]. split; [done|].
  set (a := fresh (dom (arrays σ3))).
  set (σ3a := mkRuntime (workbookName σ3) (activeWorksheet σ3)
                (<[a := DUPLICATES_CONSIDERED_COLUMNS]> (arrays σ3))
                (console σ3)).
  assert (arrays σ3a !! a = Some DUPLICATES_CONSIDERED_COLUMNS) as Ha
    by apply lookup_insert_eq.
  pose proof (removeDuplicates_run _ _ _ Ha) as Hstep.
  cbn [Range_removeDuplicates Worksheet_getUsedRange host] in Hstep.
  change (usedRange (activeWorksheet σ3a)) with U in Hstep.
  change (activeWorksheet σ3a) with (activeWorksheet σ3) in Hstep.
  fold translated in Hstep.
  destruct (removeDuplicatesOf U translated true (activeWorksheet σ3))
    as [code|ws4] eqn:Hdedupe.
  - eexists. split.
    + unfold bind at 1. unfold bind at 1. unfold newArray at 1.
      fold a. fold σ3a. rewrite Hstep. reflexivity.
    + reflexivity.
  - destruct (removeDuplicatesOf_frame _ _ _ _ _ Hdedupe)
      as (Hhidden & Hrange & Hcriteria & Hheights & Hwidths4).
    cbn [activeWorksheet hiddenColumns autoFilterRange autoFilterCriteria
         rowHeights columnWidths] in Hhidden, Hrange, Hcriteria, Hheights,
         Hwidths4.
    change (columnsOf _) with [0; 1; 2] in Hhidden.
    match type of Hstep with _ = (_, ?s) => set (σ4 := s) in * end.
    destruct (autofitColumns_run
                (snd (onlyShowFiltered RISK_COLUMN RISK_LEVELS_TOBE_SHOWN
                        (snd (setRowHeight UNIFIED_ROW_HEIGHT σ4))))
                COLUMNS_TOBE_AUTOFITTED)
      as (widths' & out' & Hrun & Hwidths).
    { repeat constructor; by eexists. }
    rewrite (setRowHeight_run σ4 UNIFIED_ROW_HEIGHT) in Hrun, Hwidths
      by done.
    cbn [snd] in Hrun, Hwidths.
    match type of Hrun with
    | autofitColumns _ (snd (onlyShowFiltered _ _ ?s)) = _ =>
        set (σ5 := s) in *
    end.
    rewrite (onlyShowFiltered_run σ5 RISK_COLUMN RISK_LEVELS_TOBE_SHOWN
               RF Hrange) in Hrun, Hwidths.
    cbn [snd] in Hrun, Hwidths.
    eexists. split.
    + unfold bind at 1. unfold bind at 1. unfold newArray at 1.
      fold a. fold σ3a. rewrite Hstep.
      rewrite (bind_Normal _ _ _ _ _
                 (setRowHeight_run σ4 UNIFIED_ROW_HEIGHT ltac:(done))).
      fold σ5.
      rewrite (bind_Normal _ _ _ _ _
                 (onlyShowFiltered_run σ5 RISK_COLUMN
                    RISK_LEVELS_TOBE_SHOWN RF Hrange)).
      rewrite (bind_Normal _ _ _ _ _ Hrun). reflexivity.
    + clear Hrun. subst σ5 σ4.
      cbn [activeWorksheet withColumnWidths cells usedRange hiddenColumns
           autoFilterRange autoFilterCriteria rowHeights columnWidths]
        in Hwidths |- *.
      split; [reflexivity|]. split; [reflexivity|].
      split; [exact Hhidden|]. split; [reflexivity|].
      split; [reflexivity|]. split; [by rewrite Hheights|].
      intros k. rewrite Hwidths, columnsNamed_autofitted.
      by rewrite Hwidths4.
Qed.

(** *** What the host's sort and duplicate removal leave *)

Global Instance textLe_trans matchCase : Transitive (textLe matchCase).
Proof.
  intros x y z. unfold textLe. destruct matchCase; apply transitivity.
Qed.

Lemma StronglySorted_sublist {A} (R : relation A) (l1 l2 : list A) :
  l1 `sublist_of` l2 → StronglySorted R l2 → StronglySorted R l1.
Proof.
  induction 1 as [|x l1 l2 Hsub IH|x l1 l2 Hsub IH]; intros Hsorted.
  - constructor.
  - apply StronglySorted_inv in Hsorted as [Htail Hhead].
    constructor; [by apply IH|].
    eapply Forall_forall. intros y Hy.
    eapply Forall_forall in Hhead; [exact Hhead|].
    by eapply sublist_subseteq.
  - apply StronglySorted_inv in Hsorted as [Htail _]. by apply IH.
Qed.

(** The host's sort by one ascending key, without regard to case and with
    a header row. *)
Lemma sortApply_sorted R (k : Z) ws ws' :
  validColumn R k = true →
  sortApply R [ {| key := k; ascending := true |} ] false true ws = inr ws' →
  usedRange ws' = usedRange ws
  ∧ (∀ c, cells ws' (getRowIndex R) c = cells ws (getRowIndex R) c)
  ∧ Sorted (textLe false)
      (columnValues ws' (getColumnIndex R + k) (dataRowsOf R)).
Proof.
  intros Hk. unfold sortApply. cbn [forallb key]. rewrite Hk.
  cbn [andb]. intros [= <-]. cbn [usedRange cells]. split; [done|].
  set (field := {| key := k; ascending := true |}).
  set (block := getValues R (cells ws)).
  change (take 1 block) with (headerOf true block).
  change (drop 1 block) with (dataOf true block).
  set (sorted := merge_sort (fieldLe false field) (dataOf true block)).
  destruct (header_data block) as (header & Hheader & Hblock).
  { unfold block. rewrite length_getValues. lia. }
  assert (getValues R (setValues R (headerOf true block ++ sorted) (cells ws))
          = header :: sorted) as Hafter.
  { rewrite Hheader. apply getValues_setValues.
    - simpl. unfold sorted. rewrite merge_sort_Permutation.
      rewrite <- (length_getValues R (cells ws)).
      fold block. by rewrite Hblock at 2.
    - assert (Forall (λ row, length row = Pos.to_nat (getColumnCount R))
                (header :: dataOf true block)) as Hwidth.
      { rewrite <- Hblock. apply width_getValues. }
      apply Forall_cons in Hwidth as [Hh Hd].
      apply Forall_cons. split; [done|].
      unfold sorted. by rewrite merge_sort_Permutation. }
  split.
  - intros c. destruct (inColumns R c) eqn:Hc.
    + assert (inRows R (getRowIndex R) = true) as Hrow
        by (apply inRows_spec; lia).
      rewrite <- (getValues_cell R
                    (setValues R (headerOf true block ++ sorted) (cells ws))
                    _ c Hrow Hc).
      rewrite <- (getValues_cell R (cells ws) _ c Hrow Hc).
      rewrite Hafter. fold block. rewrite Z.sub_diag.
      pose proof (f_equal (λ b, b !!! 0%nat) Hblock) as Hfirst.
      simpl in Hfirst. change (Z.to_nat 0) with 0%nat.
      by rewrite Hfirst.
    + apply setValues_outside. by rewrite Hc, andb_false_r.
  - apply validColumn_spec in Hk.
    rewrite columnValues_data by (apply inColumns_spec; lia).
    cbn [cells]. rewrite Hafter. simpl. rewrite drop_0.
    replace (getColumnIndex R + k - getColumnIndex R) with k by lia.
    apply (Sorted_fmap _ (fieldLe false field)); [done|].
    apply Sorted_merge_sort, _.
Qed.

(** The host's duplicate removal on the used range, with a header row. *)
Lemma removeDuplicatesOf_values (columns : list Z) ws ws' :
  removeDuplicatesOf (usedRange ws) columns true ws = inr ws' →
  ∃ header data,
    getValues (usedRange ws) (cells ws) = header :: data
    ∧ getValues (usedRange ws') (cells ws')
      = header :: keepFirst columns [] data
    ∧ getRowIndex (usedRange ws') = getRowIndex (usedRange ws)
    ∧ getColumnIndex (usedRange ws') = getColumnIndex (usedRange ws)
    ∧ getColumnCount (usedRange ws') = getColumnCount (usedRange ws).
Proof.
  unfold removeDuplicatesOf.
  destruct (forallb (validColumn (usedRange ws)) columns); [|done].
  intros [= <-]. cbn [cells usedRange].
  rewrite decide_True by done.
  cbn [getRowIndex getColumnIndex getColumnCount].
  set (R := usedRange ws).
  set (block := getValues R (cells ws)).
  change (take 1 block) with (headerOf true block).
  change (drop 1 block) with (dataOf true block).
  destruct (header_data block) as (header & Hheader & Hblock).
  { unfold block. rewrite length_getValues. lia. }
  set (data := dataOf true block) in *.
  set (survivors := keepFirst columns [] data).
  pose proof (keepFirst_sublist columns [] data) as Hsub.
  fold survivors in Hsub.
  pose proof (sublist_length _ _ Hsub) as Hle.
  assert (length block = S (length data)) as Hlen
    by (rewrite Hblock at 1; done).
  assert (length block = Pos.to_nat (getRowCount R)) as Hrows
    by apply length_getValues.
  assert (Forall (λ row, length row = Pos.to_nat (getColumnCount R))
            (header :: data)) as Hwidth.
  { rewrite <- Hblock. apply width_getValues. }
  exists header, data. rewrite Hheader.
  split; [done|]. split; [|done].
  set (kept := [header] ++ survivors).
  assert (length kept = S (length survivors)) as Hkept by done.
  rewrite getValues_fewer_rows; cbn [getRowCount];
    rewrite Nat2Pos.id by lia; [|lia].
  rewrite getValues_setValues.
  - by apply take_app_length'.
  - rewrite length_app, length_replicate. lia.
  - apply Forall_app. split.
    + apply Forall_cons in Hwidth as [Hh Hd].
      apply Forall_cons. split; [done|].
      eapply Forall_forall. intros row Hrow.
      eapply Forall_forall in Hd; [exact Hd|].
      by eapply sublist_subseteq.
    + apply Forall_replicate. unfold blankRow.
      by rewrite length_replicate.
Qed.

(** The considered columns of [main] are columns of a range exactly when
    the range reaches from column D, or left of it, to column O, or right
    of it. *)
Lemma considered_columns_used R :
  forallb (validColumn R)
    ((λ x, x - getColumnIndex R) <$> DUPLICATES_CONSIDERED_COLUMNS) = true
  ↔ getColumnIndex R ≤ 3 ∧ 14 < getColumnIndex R + Z.pos (getColumnCount R).
Proof.
  rewrite validColumn_translated. unfold DUPLICATES_CONSIDERED_COLUMNS.
  rewrite !Forall_cons, Forall_nil, !inColumns_spec. lia.
Qed.

(** X11. when the run completes.  On the reference host [main] returns
    exactly when the workbook name ends in [.xlsx] and the used range
    reaches from column D, or left of it, to column O, or right of it.  For
    a workbook of the right kind whose used range does not, the run ends
    with the host's [InvalidArgument] at the duplicate removal. *)
Theorem main_returns_when_columns_D_to_O_are_used σ :
  let U := usedRange (activeWorksheet σ) in
  ((∃ σ', main σ = (Normal tt, σ'))
   ↔ (∃ stem, workbookName σ = stem +:+ ".xlsx")
     ∧ getColumnIndex U ≤ 3
     ∧ 14 < getColumnIndex U + Z.pos (getColumnCount U))
  ∧ ((∃ stem, workbookName σ = stem +:+ ".xlsx") →
     ¬ (getColumnIndex U ≤ 3
        ∧ 14 < getColumnIndex U + Z.pos (getColumnCount U)) →
     ∃ σ', main σ = (Throw (HostError "InvalidArgument"), σ')).
Proof.
  intros U.
  assert (endsWith (workbookName σ) ".xlsx" = true →
          (getColumnIndex U ≤ 3
           ∧ 14 < getColumnIndex U + Z.pos (getColumnCount U) →
           ∃ σ', main σ = (Normal tt, σ'))
          ∧ (¬ (getColumnIndex U ≤ 3
                ∧ 14 < getColumnIndex U + Z.pos (getColumnCount U)) →
             ∃ σ', main σ = (Throw (HostError "InvalidArgument"), σ')))
    as Hrun.
  { intros Hname.
    destruct (main_on_sheet σ Hname) as (ws2 & ws3 & _ & _ & _ & Hend).
    fold U in Hend.
    pose proof (considered_columns_used U) as Hcolumns.
    unfold removeDuplicatesOf in Hend.
    destruct (forallb (validColumn U) _).
    - split; [|intros []; by apply Hcolumns].
      intros _. destruct Hend as (σ' & Hmain & _). eauto.
    - split; [intros Hused; apply Hcolumns in Hused; done|].
      intros _. destruct Hend as (σ' & Hmain & _). eauto. }
  split; [split|].
  - intros [σ' Hmain].
    destruct (endsWith (workbookName σ) ".xlsx") eqn:Hname;
      [|by rewrite (main_wrong_kind _ Hname) in Hmain].
    split; [by apply endsWith_spec|].
    destruct (decide (getColumnIndex U ≤ 3
                      ∧ 14 < getColumnIndex U + Z.pos (getColumnCount U)))
      as [Hused|Hnarrow]; [done|].
    destruct (proj2 (Hrun eq_refl) Hnarrow) as [σ'' Hthrow].
    by rewrite Hmain in Hthrow.
  - intros (Hname%endsWith_spec & Hused). by apply Hrun.
  - intros Hname%endsWith_spec Hnarrow. by apply Hrun.
Qed.

(** X12. what a completed run leaves of the layout.  On the reference host,
    when [main] has returned: columns A to C are hidden on top of those
    that were; the autofilter is on columns D to O with the four risk levels
    as values of its first column, so that a data row of the filter range is
    visible exactly when its text in column D is one of them; every row of
    the used range has height 14; and columns E, F, I, J and M have the
    width that fits them, the other widths being as they were. *)
Theorem main_leaves_layout σ σ' :
  main σ = (Normal tt, σ') →
  (∀ k, k ∈ hiddenColumns (activeWorksheet σ')
        ↔ k ∈ hiddenColumns (activeWorksheet σ) ∨ 0 ≤ k ≤ 2)
  ∧ (∃ R, autoFilterRange (activeWorksheet σ') = Some R
          ∧ getColumnIndex R = 3 ∧ getColumnCount R = 12%positive
          ∧ ∀ r, isDataRow R r = true →
                 (rowVisible (activeWorksheet σ') r = true
                  ↔ cells (activeWorksheet σ') r 3 ∈ RISK_LEVELS_TOBE_SHOWN))
  ∧ (∀ r, inRows (usedRange (activeWorksheet σ')) r = true →
          rowHeights (activeWorksheet σ') !! r = Some 14)
  ∧ (∀ k, columnWidths (activeWorksheet σ') !! k
          = if decide (k ∈ [4; 5; 8; 9; 12])
            then Some (fitWidth (activeWorksheet σ') k)
            else columnWidths (activeWorksheet σ) !! k).
Proof.
  intros Hmain.
  destruct (endsWith (workbookName σ) ".xlsx") eqn:Hname;
    [|by rewrite (main_wrong_kind _ Hname) in Hmain].
  destruct (main_on_sheet σ Hname) as (ws2 & ws3 & _ & _ & _ & Hend).
  destruct (removeDuplicatesOf _ _ true ws3) as [code|ws4].
  { destruct Hend as (σ'' & Hthrow & _). by rewrite Hmain in Hthrow. }
  destruct Hend as (σ'' & Hmain' & _ & Hused & Hhidden & Hrange & Hcriteria
                    & Hheights & Hwidths).
  rewrite Hmain in Hmain'. injection Hmain' as <-.
  split_and!.
  - intros k. rewrite Hhidden, elem_of_union, elem_of_list_to_set.
    rewrite !elem_of_cons, elem_of_nil.
    split; (intros [?|?]; [by left | right; lia]).
  - eexists. split; [exact Hrange|]. split; [done|]. split; [done|].
    intros r Hr. unfold rowVisible. rewrite Hrange, Hcriteria, Hr.
    by rewrite bool_decide_eq_true.
  - intros r Hr. rewrite Hheights, (lookup_foldr_insert (λ _, 14)).
    rewrite decide_True; [done|]. apply elem_of_rowsOf. by rewrite <- Hused.
  - exact Hwidths.
Qed.

(** X13. what a completed run leaves of the table.  On the reference host,
    for a worksheet whose used range starts in the first row: when [main]
    has returned, the used range starts where it did, its first row is the
    header row it had, and the rows below it are rows no two of which agree
    on all of the columns D to O, with the texts of column D in
    non-decreasing order without regard to case. *)
Theorem main_leaves_table_sorted_and_distinct σ σ' :
  main σ = (Normal tt, σ') →
  getRowIndex (usedRange (activeWorksheet σ)) = 0 →
  let U := usedRange (activeWorksheet σ) in
  let U' := usedRange (activeWorksheet σ') in
  ∃ header rows rows',
    getValues U (cells (activeWorksheet σ)) = header :: rows
    ∧ getValues U' (cells (activeWorksheet σ')) = header :: rows'
    ∧ getRowIndex U' = 0
    ∧ getColumnIndex U' = getColumnIndex U
    ∧ getColumnCount U' = getColumnCount U
    ∧ (length rows' ≤ length rows)%nat
    ∧ NoDup (rowKey ((λ x, x - getColumnIndex U)
                       <$> DUPLICATES_CONSIDERED_COLUMNS) <$> rows')
    ∧ Sorted (textLe false)
        (columnValues (activeWorksheet σ') RISK_COLUMN (dataRowsOf U')).
Proof.
  intros Hmain Hfirst U U'. fold U in Hfirst.
  destruct (endsWith (workbookName σ) ".xlsx") eqn:Hname;
    [|by rewrite (main_wrong_kind _ Hname) in Hmain].
  destruct (main_on_sheet σ Hname)
    as (ws2 & ws3 & Hcells2 & Hused2 & Hsort & Hend).
  fold U in Hused2, Hsort, Hend.
  set (translated := (λ x, x - getColumnIndex U)
                       <$> DUPLICATES_CONSIDERED_COLUMNS) in *.
  set (RF := {| getRowIndex := 0; getColumnIndex := 3;
                getRowCount :=
                  Z.to_pos (getRowIndex U + Z.pos (getRowCount U));
                getColumnCount := 12 |}) in *.
  destruct (sortApply_sorted RF 0 ws2 ws3 eq_refl Hsort)
    as (Hused3 & Hheader3 & Hsorted3).
  rewrite Hused2 in Hused3.
  destruct (removeDuplicatesOf U translated true ws3) as [code|ws4] eqn:Hdedupe.
  { destruct Hend as (σ'' & Hthrow & _). by rewrite Hmain in Hthrow. }
  destruct Hend as (σ'' & Hmain' & Hcells' & Hused' & _).
  rewrite Hmain in Hmain'. injection Hmain' as <-.
  assert (forallb (validColumn U) translated = true) as Hvalid.
  { unfold removeDuplicatesOf in Hdedupe.
    by destruct (forallb (validColumn U) translated). }
  apply considered_columns_used in Hvalid.
  assert (inColumns U 3 = true) as HD by (apply inColumns_spec; lia).
  rewrite <- Hused3 in Hdedupe.
  destruct (removeDuplicatesOf_values _ _ _ Hdedupe)
    as (header & data & Hbefore & Hafter & Hrow4 & Hcol4 & Hcount4).
  rewrite Hused3 in Hbefore, Hrow4, Hcol4, Hcount4.
  pose proof (keepFirst_sublist translated [] data) as Hsub.
  destruct (header_data (getValues U (cells (activeWorksheet σ))))
    as (header0 & _ & Hblock0).
  { rewrite length_getValues. lia. }
  (* the header row is the row the worksheet had *)
  assert (∀ c, cells ws3 0 c = cells (activeWorksheet σ) 0 c) as Hrow0.
  { intros c. rewrite <- Hcells2. apply (Hheader3 c). }
  assert (inRows U 0 = true) as Hin0 by (apply inRows_spec; lia).
  assert (header = header0) as ->.
  { pose proof (f_equal (λ b, b !!! 0%nat) Hbefore) as H3.
    pose proof (f_equal (λ b, b !!! 0%nat) Hblock0) as H0.
    simpl in H3, H0. rewrite <- H3, <- H0.
    unfold getValues, rowsOf. rewrite (seqZ_cons (getRowIndex U)) by lia.
    fold U in Hfirst. rewrite Hfirst. simpl.
    apply list_fmap_ext. intros _ c _. apply Hrow0. }
  exists header0, (dataOf true (getValues U (cells (activeWorksheet σ)))),
    (keepFirst translated [] data).
  unfold U'. rewrite Hused', Hcells'.
  split; [done|]. split; [done|].
  split; [by rewrite Hrow4|]. split; [done|]. split; [done|].
  split.
  { apply sublist_length in Hsub.
    pose proof (f_equal length Hbefore) as Hlen3.
    pose proof (f_equal length Hblock0) as Hlen0.
    rewrite length_getValues in Hlen3, Hlen0.
    cbn [length] in Hlen3, Hlen0. lia. }
  split; [apply keepFirst_NoDup|].
  (* column D of the rows that are left is a sublist of the sorted one *)
  assert (inColumns (usedRange ws4) RISK_COLUMN = true) as HD4.
  { apply inColumns_spec. rewrite Hcol4, Hcount4. unfold RISK_COLUMN. lia. }
  rewrite (columnValues_data _ _ _ HD4), Hcells', Hafter.
  cbn [drop]. rewrite drop_0.
  apply StronglySorted_Sorted.
  apply (StronglySorted_sublist _ _
           ((λ row, row !!! Z.to_nat (RISK_COLUMN - getColumnIndex (usedRange ws4)))
              <$> data)).
  { by apply fmap_sublist. }
  apply Sorted_StronglySorted; [apply _|].
  assert (dataRowsOf RF = dataRowsOf U) as Hrows.
  { unfold dataRowsOf, RF. cbn [getRowIndex getRowCount].
    rewrite Hfirst. f_equal; lia. }
  rewrite Hrows in Hsorted3. cbn [getColumnIndex RF] in Hsorted3.
  change (3 + 0) with RISK_COLUMN in Hsorted3.
  rewrite (columnValues_data U ws3 RISK_COLUMN HD), Hbefore in Hsorted3.
  cbn [drop] in Hsorted3. rewrite drop_0 in Hsorted3.
  by rewrite Hcol4.
Qed.

End MoreSheetFacts.

(** ** The column inserter *)

Section InserterFailures.
Context {W : Type} `{ExcelHost W} `{ExcelHostCells W}.
Implicit Types (σ : Runtime W) (e : Exception).










End InserterFailures.

Section InserterFacts.
Import Sheet SheetCells.
Implicit Types (σ : Runtime Worksheet) (ws : Worksheet) (R : Range).

(** The loop of [insertColumn] writes the value to the rows it runs over,
    in the one column, and to no other cell. *)
Lemma forRange_setValue (c : Z) (value : string) n : ∀ first σ,
  ∃ σ',
    forRange n first
      (λ i, hostDo (Range_setValue (Worksheet_getCell (Z.of_nat i) c) value))
      σ = (Normal tt, σ')
    ∧ console σ' = console σ
    ∧ workbookName σ' = workbookName σ
    ∧ arrays σ' = arrays σ
    ∧ ∀ r k, cells (activeWorksheet σ') r k
             = if decide (k = c ∧ Z.of_nat first ≤ r < Z.of_nat first + Z.of_nat n)
               then value else cells (activeWorksheet σ) r k.
Proof.
  induction n as [|n IH]; intros first σ.
  - exists σ. split_and!; try done. intros r k.
    rewrite decide_False; [done | lia].
  - cbn [forRange]. unfold bind at 1.
    unfold hostDo at 1. cbn [Range_setValue hostCells setValueOf].
    match goal with
    | |- context [forRange n (S first) ?body ?s] =>
        destruct (IH (S first) s) as (σ' & Hrun & Hout & Hname & Harr & Hcells)
    end.
    exists σ'. split; [exact Hrun|]. split_and!; try done.
    intros r k. rewrite Hcells. cbn [activeWorksheet cells].
    unfold inRows, inColumns, Worksheet_getCell.
    cbn [getRowIndex getColumnIndex getRowCount getColumnCount].
    repeat case_decide; repeat case_bool_decide;
      destruct (Z.of_nat first <=? r) eqn:?, (r <? Z.of_nat first + 1) eqn:?,
               (c <=? k) eqn:?, (k <? c + 1) eqn:?; simpl; try done; lia.
Qed.

(** X15. on the reference host [insertColumn], for an anchor column written
    in letters and a table that does not start above row 0, returns, logs
    its one line, and leaves these cells.  In the rows from row 0 to the last
    used row, the columns left of the anchor are as they were, the cells
    that were at or right of the anchor are one column further right, and
    the anchor column holds the new column: the name in row 0 of the sheet,
    the field value in every later row.  The other rows are as they were.
    So the name goes to row 0 of the sheet also when the table starts lower,
    and the first row of such a table gets the field value. *)
Theorem insertColumn_fills_new_column σ
    (insertBeforeThisColumn newColumnName newColumnFields : string) c :
  columnOfLetters insertBeforeThisColumn = Some c →
  0 ≤ getRowIndex (usedRange (activeWorksheet σ)) →
  let U := usedRange (activeWorksheet σ) in
  let lastRow := getRowIndex U + Z.pos (getRowCount U) - 1 in
  ∃ σ',
    insertColumn insertBeforeThisColumn newColumnName newColumnFields σ
    = (Normal tt, σ')
    ∧ console σ'
      = console σ
        ++ ["Column " +:+ quote +:+ newColumnName +:+ quote
            +:+ " inserted at Column " +:+ insertBeforeThisColumn
            +:+ " populated with " +:+ quote +:+ newColumnFields +:+ quote]
    ∧ ∀ r k,
        cells (activeWorksheet σ') r k
        = if decide (0 ≤ r ≤ lastRow) then
            if decide (k < c) then cells (activeWorksheet σ) r k
            else if decide (k = c) then
                   if decide (r = 0) then newColumnName else newColumnFields
                 else cells (activeWorksheet σ) r (k - 1)
          else cells (activeWorksheet σ) r k.
Proof.
  intros Hc Hfirst U lastRow. destruct σ as [name ws arrs out].
  cbn [activeWorksheet] in *.
  pose proof (columnSpan_single _ _ Hc) as Hspan.
  unfold insertColumn.
  unfold bind at 1. unfold hostTry at 1. cbn [activeWorksheet].
  cbn [Worksheet_getRange host]. unfold getRange at 1. rewrite Hspan.
  unfold bind at 1. unfold hostDo at 1. cbn [activeWorksheet].
  cbn [Range_insert hostCells insertOf getColumnIndex getColumnCount].
  unfold bind at 1. unfold hostTry at 1. cbn [activeWorksheet].
  cbn [Worksheet_getRange host]. unfold getRange at 1. rewrite Hspan.
  unfold bind at 1. unfold hostGet at 1.
  cbn [activeWorksheet Worksheet_getUsedRange host usedRange getColumnIndex].
  unfold bind at 1. unfold hostDo at 1.
  cbn [activeWorksheet Range_setValue hostCells setValueOf].
  unfold bind at 1.
  match goal with
  | |- context [forRange ?n ?first ?body ?s] =>
      destruct (forRange_setValue c newColumnFields n first s)
        as (σ' & Hrun & Hout & Hname & Harr & Hcells)
  end.
  cbn [Range_setValue hostCells] in Hrun. rewrite Hrun. unfold console_log. eexists. split; [reflexivity|].
  cbn [console activeWorksheet] in *. rewrite Hout. split; [done|].
  intros r k. rewrite Hcells. clear Hcells Hrun.
  assert (getRowIndex (shiftRange c (Z.pos (Z.to_pos (c - c + 1))) (usedRange ws))
          = getRowIndex U
          ∧ getRowCount (shiftRange c (Z.pos (Z.to_pos (c - c + 1))) (usedRange ws))
            = getRowCount U) as [-> ->].
  { unfold shiftRange. by repeat case_match. }
  fold lastRow.
  replace (c - c + 1) with 1 by lia.
  unfold inRows, inColumns, Worksheet_getCell.
  cbn [getRowIndex getColumnIndex getRowCount getColumnCount].
  assert (Z.pos (Z.to_pos (getRowIndex (usedRange ws)
                           + Z.pos (getRowCount (usedRange ws))))
          = lastRow + 1) as ->.
  { unfold lastRow, U. lia. }
  change (Z.pos (Z.to_pos 1)) with 1.
  assert (0 ≤ lastRow) by (unfold lastRow, U; lia).
  cbn [cells]. cbv beta.
  repeat case_decide;
    destruct (0 <=? r) eqn:?, (r <? 0 + 1) eqn:?, (r <? 0 + (lastRow + 1)) eqn:?,
             (c <=? k) eqn:?, (k <? c + 1) eqn:?, (k <? c) eqn:?;
    simpl; try done; try lia.
  all: try (f_equal; lia).
Qed.

End InserterFacts.

(** ** Worked runs *)

Section MoreWorked.
Import Sheet SheetCells Examples.

(** The twelve lines of the run on the scan. *)
Lemma main_logs_every_step_witness :
  console (snd (main scanRun))
  = console scanRun
    ++ [ "Columns A:C are hidden.";
         "Filters applied to columns D:O.";
         "Table sorted by column 3.";
         "Duplicates removed.";
         "Height of occupied cells is set to 14.";
         "Table only show filtered at column 3 with values Critical,High,Low,Medium.";
         "Autofit is applied to column E.";
         "Autofit is applied to column F.";
         "Autofit is applied to column I.";
         "Autofit is applied to column J.";
         "Autofit is applied to column M.";
         "Autofit is applied to columns E,F,I,J,M." ].
Proof.
  apply (main_logs_every_step scanRun (snd (main scanRun))).
  vm_compute. reflexivity.
Defined.

(** Sorting the filtered scan by column A, which is no column of the
    filter, and hiding the columns of an address that is none: both throw
    and leave the state they were given. *)
Lemma single_steps_fail_clean_witness :
  sort 0 filteredRun = (Throw (HostError "InvalidArgument"), filteredRun)
  ∧ hideColumns "1:1" scanRun
    = (Throw (HostError "InvalidArgument"), scanRun).
Proof.
  destruct (single_steps_fail_clean (W := Worksheet) "1:1" "E" 0 14 [])
    as (Hhide & _ & Hsort & _).
  split.
  - assert (sort 0 filteredRun
            = (Throw (HostError "InvalidArgument"), snd (sort 0 filteredRun)))
      as Hrun by (vm_compute; reflexivity).
    pose proof (Hsort _ _ _ Hrun) as Hsame. rewrite Hsame in Hrun.
    exact Hrun.
  - assert (hideColumns "1:1" scanRun
            = (Throw (HostError "InvalidArgument"),
               snd (hideColumns "1:1" scanRun)))
      as Hrun by (vm_compute; reflexivity).
    pose proof (Hhide _ _ _ Hrun) as Hsame. rewrite Hsame in Hrun.
    exact Hrun.
Defined.

(** The batch [E, 1, F] on the scan: [1] is no column, the batch stops
    there. *)
Lemma autofitColumns_stops_at_first_failure_witness :
  autofitColumns ["E"; "1"; "F"] scanRun
  = (Throw (HostError "InvalidArgument"),
     snd (autofitColumns ["E"; "1"; "F"] scanRun))
  ∧ ∃ before column after,
      ["E"; "1"; "F"] = before ++ column :: after
      ∧ forOf before autofitColumn scanRun
        = (Normal tt, snd (autofitColumns ["E"; "1"; "F"] scanRun))
      ∧ autofitColumn column (snd (autofitColumns ["E"; "1"; "F"] scanRun))
        = (Throw (HostError "InvalidArgument"),
           snd (autofitColumns ["E"; "1"; "F"] scanRun))
      ∧ console (snd (autofitColumns ["E"; "1"; "F"] scanRun))
        = console scanRun
          ++ ((λ c, "Autofit is applied to column " +:+ c +:+ ".")
                <$> before).
Proof.
  assert (autofitColumns ["E"; "1"; "F"] scanRun
          = (Throw (HostError "InvalidArgument"),
             snd (autofitColumns ["E"; "1"; "F"] scanRun)))
    as Hrun by (vm_compute; reflexivity).
  split; [exact Hrun|].
  exact (autofitColumns_stops_at_first_failure _ _ _ _ Hrun).
Defined.

(** The array [3; 4] over the table that starts at column 2 holds [-1; 0]
    after two calls. *)
Lemma removeDuplicates_twice_translates_twice_witness :
  ∃ completion σ2,
    removeDuplicates 0%nat (snd (removeDuplicates 0%nat shiftedRun))
    = (completion, σ2)
    ∧ arrays σ2 !! 0%nat = Some [-1; 0].
Proof.
  destruct (removeDuplicates_twice_translates_twice shiftedRun 0%nat [3; 4]
              (snd (removeDuplicates 0%nat shiftedRun)))
    as (completion & σ2 & Hrun & Harray).
  - vm_compute. reflexivity.
  - vm_compute. reflexivity.
  - exists completion, σ2. split; [exact Hrun|].
    rewrite Harray. vm_compute. reflexivity.
Defined.

(** Hiding columns A to C of the scan. *)
Lemma hideColumns_only_hides_witness :
  ∃ σ',
    hideColumns "A:C" scanRun = (Normal tt, σ')
    ∧ 1 ∈ hiddenColumns (activeWorksheet σ')
    ∧ ¬ 3 ∈ hiddenColumns (activeWorksheet σ')
    ∧ cells (activeWorksheet σ') = cells scan.
Proof.
  destruct (hideColumns_only_hides scanRun "A:C"
              {| getRowIndex := 0; getColumnIndex := 0;
                 getRowCount := 6; getColumnCount := 3 |})
    as (σ' & Hrun & Hhidden & Hcells & _).
  - vm_compute. reflexivity.
  - exists σ'. split; [exact Hrun|]. split; [|split].
    + apply Hhidden. right. reflexivity.
    + intros [Hbefore | Hin]%Hhidden.
      * vm_compute in Hbefore. discriminate Hbefore.
      * vm_compute in Hin. discriminate Hin.
    + exact Hcells.
Defined.

(** Binding the filter again after the risk levels were chosen: the row of
    risk [Info], hidden by them, is visible again. *)
Lemma filterColumns_shows_every_row_witness :
  rowVisible
    (activeWorksheet
       (snd (onlyShowFiltered 3 RISK_LEVELS_TOBE_SHOWN filteredRun))) 1
  = false
  ∧ ∃ σ',
      filterColumns "D:O"
        (snd (onlyShowFiltered 3 RISK_LEVELS_TOBE_SHOWN filteredRun))
      = (Normal tt, σ')
      ∧ rowVisible (activeWorksheet σ') 1 = true.
Proof.
  split; [vm_compute; reflexivity|].
  destruct (filterColumns_shows_every_row
              (snd (onlyShowFiltered 3 RISK_LEVELS_TOBE_SHOWN filteredRun))
              "D:O" filterRange)
    as (σ' & Hrun & _ & _ & Hvisible & _).
  - vm_compute. reflexivity.
  - exists σ'. split; [exact Hrun | apply Hvisible].
Defined.

(** The scan filtered on columns D to O can be sorted by column D and not
    by column C. *)
Lemma sort_after_filterColumns_witness :
  (∃ σ2, sort 3 filteredRun = (Normal tt, σ2))
  ∧ sort 2 filteredRun = (Throw (HostError "InvalidArgument"), filteredRun).
Proof.
  assert (getRange "D:O" (activeWorksheet scanRun) = inr filterRange)
    as HR by (vm_compute; reflexivity).
  assert (filterColumns "D:O" scanRun = (Normal tt, filteredRun))
    as Hrun by (vm_compute; reflexivity).
  split.
  - apply (proj1 (sort_after_filterColumns scanRun "D:O" filterRange
                    filteredRun 3 HR Hrun ltac:(lia))).
    reflexivity.
  - apply (proj2 (sort_after_filterColumns scanRun "D:O" filterRange
                    filteredRun 2 HR Hrun ltac:(lia))).
    reflexivity.
Defined.

(** Autofitting column E of the scan. *)
Lemma autofitColumn_fits_one_column_witness :
  ∃ σ',
    autofitColumn "E" scanRun = (Normal tt, σ')
    ∧ columnWidths (activeWorksheet σ') !! 4 = Some (fitWidth scan 4)
    ∧ columnWidths (activeWorksheet σ') !! 5 = None.
Proof.
  destruct (autofitColumn_fits_one_column scanRun "E" 4)
    as (σ' & Hrun & Hwidths & _).
  - vm_compute. reflexivity.
  - exists σ'. split; [exact Hrun|]. rewrite Hwidths. split.
    + apply lookup_insert_eq.
    + rewrite lookup_insert_ne by lia. vm_compute. reflexivity.
Defined.

(** The scan uses columns A to O and its run returns; the worksheet with
    six used columns stops at the duplicate removal. *)
Lemma main_returns_when_columns_D_to_O_are_used_witness :
  (∃ σ', main scanRun = (Normal tt, σ'))
  ∧ (∃ σ', main narrowRun = (Throw (HostError "InvalidArgument"), σ')).
Proof.
  split.
  - apply (proj1 (main_returns_when_columns_D_to_O_are_used scanRun)).
    split; [by exists "scan"|]. vm_compute. by split.
  - apply (proj2 (main_returns_when_columns_D_to_O_are_used narrowRun)).
    + by exists "narrow".
    + vm_compute. intros [_ Hlast]. discriminate Hlast.
Defined.

(** The layout of the scan after its run. *)
Lemma main_leaves_layout_witness :
  1 ∈ hiddenColumns (activeWorksheet (snd (main scanRun)))
  ∧ rowHeights (activeWorksheet (snd (main scanRun))) !! 2 = Some 14
  ∧ columnWidths (activeWorksheet (snd (main scanRun))) !! 3 = None.
Proof.
  destruct (main_leaves_layout scanRun (snd (main scanRun)))
    as (Hhidden & _ & Hheights & Hwidths).
  - vm_compute. reflexivity.
  - split; [|split].
    + apply Hhidden. right. lia.
    + apply Hheights. vm_compute. reflexivity.
    + rewrite Hwidths. vm_compute. reflexivity.
Defined.

(** The table of the scan after its run. *)
Lemma main_leaves_table_sorted_and_distinct_witness :
  Sorted (textLe false)
    (columnValues (activeWorksheet (snd (main scanRun))) RISK_COLUMN
       (dataRowsOf (usedRange (activeWorksheet (snd (main scanRun))))))
  ∧ columnValues (activeWorksheet (snd (main scanRun))) RISK_COLUMN
      (dataRowsOf (usedRange (activeWorksheet (snd (main scanRun)))))
    = ["Critical"; "high"; "Info"; "Low"].
Proof.
  split; [|vm_compute; reflexivity].
  pose proof (main_leaves_table_sorted_and_distinct scanRun
                (snd (main scanRun))) as Htable.
  cbv zeta in Htable.
  destruct Htable as (header & rows & rows' & _ & _ & _ & _ & _ & _ & _
                      & Hsorted).
  - vm_compute. reflexivity.
  - vm_compute. reflexivity.
  - exact Hsorted.
Defined.


(** A device column inserted before column D of a table that starts in
    row 2: the name is in row 0, above the table, the table's header row
    holds the field value, and the risks are one column further right. *)
Lemma insertColumn_fills_new_column_witness :
  ∃ σ',
    insertColumn "D" "Device" "fw-9"
      (mkRuntime "low.xlsx"
         (ofTable 2 2 3 [["Id"; "Risk"; "Host"]; ["1"; "Low"; "a"]]) ∅ [])
    = (Normal tt, σ')
    ∧ cells (activeWorksheet σ') 0 3 = "Device"
    ∧ cells (activeWorksheet σ') 2 3 = "fw-9"
    ∧ cells (activeWorksheet σ') 2 2 = "Id"
    ∧ cells (activeWorksheet σ') 2 4 = "Risk"
    ∧ cells (activeWorksheet σ') 3 4 = "Low".
Proof.
  pose proof (insertColumn_fills_new_column
                (mkRuntime "low.xlsx"
                   (ofTable 2 2 3 [["Id"; "Risk"; "Host"]; ["1"; "Low"; "a"]])
                   ∅ [])
                "D" "Device" "fw-9" 3) as Hinsert.
  cbv zeta in Hinsert.
  destruct Hinsert as (σ' & Hrun & _ & Hcells).
  - vm_compute. reflexivity.
  - vm_compute. discriminate.
  - exists σ'. split; [exact Hrun|].
    rewrite !Hcells. vm_compute. done.
Defined.

End MoreWorked.
